(** * repo2reel: a shallow embedding of the pipeline's decision logic

    The development follows the Python sources module by module:
    - [PyStr]  : the [str] methods and the [re.sub] calls the code relies on;
    - [Py]     : exceptions, [try]/[except] and the state-and-error monad;
    - [Audio]  : generate_audio.py (text cleaning, engine dispatch, fallback);
    - [Video]  : generate_video.py (duration estimate, sections, scenes);
    - [Merge]  : merge_av.py (probing, strategy selection, fallback ladder);
    - [LLM]    : llm_utils.py (service selection and text generation);
    - [App]    : app.py (session registry, submission, background worker).

    Conventions.  A Python [str] is a [string] whose characters are the code
    points below 256.  A Python [float] holding a duration is an exact
    rational [Q]: comparisons are modelled exactly, rounding is not, and a
    division by zero raises as it does in Python.  External programs, the
    network and the file system are oracles of an abstract world. *)

From Stdlib Require Import ZArith QArith Qabs Qround Lqa.
From Stdlib Require Import Ascii String List Lia Bool.
From stdpp Require Import base gmap strings list.

Open Scope string_scope.

(* ===================================================================== *)
(** * Python strings                                                      *)
(* ===================================================================== *)

Module PyStr.

Definition newline : ascii := "010"%char.

(** [str.isspace] on one character (also what [\s] matches and what
    [strip] and [split()] remove): TAB..CR, FS..US, space, NEL, NBSP. *)
Definition is_space (c : ascii) : bool :=
  let n := nat_of_ascii c in
  (((9 <=? n) && (n <=? 13)) || ((28 <=? n) && (n <=? 32))
   || (n =? 133) || (n =? 160))%nat.

(** [\d] of a [str] pattern: the decimal digits. *)
Definition is_decimal (c : ascii) : bool :=
  let n := nat_of_ascii c in ((48 <=? n) && (n <=? 57))%nat.

(** [str.isdigit] on one character: decimal digits and the superscripts
    two, three and one. *)
Definition is_digit (c : ascii) : bool :=
  let n := nat_of_ascii c in
  is_decimal c || ((n =? 178) || (n =? 179) || (n =? 185))%nat.

Definition is_empty (s : string) : bool :=
  match s with EmptyString => true | String _ _ => false end.

(** Truthiness of a [str]. *)
Definition truthy (s : string) : bool := negb (is_empty s).

Fixpoint drop (n : nat) (s : string) : string :=
  match n, s with
  | S k, String _ s' => drop k s'
  | _, _ => s
  end.

(** [s[:n]] *)
Definition take (n : nat) (s : string) : string := substring 0 n s.

Definition startswith (p s : string) : bool := String.prefix p s.

(** [s.endswith(suf)] *)
Fixpoint endswith (suf s : string) : bool :=
  String.eqb suf s
  || match s with
     | EmptyString => false
     | String _ s' => endswith suf s'
     end.

(** [sub in s] *)
Fixpoint contains (sub s : string) : bool :=
  String.prefix sub s
  || match s with
     | EmptyString => false
     | String _ s' => contains sub s'
     end.

Fixpoint any_char (p : ascii -> bool) (s : string) : bool :=
  match s with
  | EmptyString => false
  | String c s' => p c || any_char p s'
  end.

Fixpoint lstrip (s : string) : string :=
  match s with
  | EmptyString => EmptyString
  | String c s' => if is_space c then lstrip s' else s
  end.

Fixpoint rstrip (s : string) : string :=
  match s with
  | EmptyString => EmptyString
  | String c s' =>
      let r := rstrip s' in
      if is_space c && is_empty r then EmptyString else String c r
  end.

Definition strip (s : string) : string := rstrip (lstrip s).

(** [s.split()]: the maximal runs of non-whitespace characters. *)
Fixpoint split_ws_from (cur : option string) (s : string) : list string :=
  match s with
  | EmptyString => match cur with Some w => [w] | None => [] end
  | String c s' =>
      if is_space c then
        match cur with
        | Some w => w :: split_ws_from None s'
        | None => split_ws_from None s'
        end
      else
        split_ws_from
          (Some (match cur with
                 | Some w => w ++ String c EmptyString
                 | None => String c EmptyString
                 end)) s'
  end.

Definition split_ws (s : string) : list string := split_ws_from None s.

(** [s.split(sep)] for a non-empty [sep]: [skip] counts the characters
    of a separator that has been recognised and is being passed over. *)
Fixpoint split_from (sep : string) (skip : nat) (cur s : string)
  : list string :=
  match s with
  | EmptyString => [cur]
  | String c s' =>
      match skip with
      | S k => split_from sep k cur s'
      | O =>
          if String.prefix sep s
          then cur :: split_from sep (String.length sep - 1) EmptyString s'
          else split_from sep 0 (cur ++ String c EmptyString) s'
      end
  end.

Definition split (sep s : string) : list string :=
  split_from sep 0 EmptyString s.

(** [sep.join(parts)] *)
Definition join (sep : string) (parts : list string) : string :=
  String.concat sep parts.

(** [s.replace(old, new)] for a non-empty [old]. *)
Fixpoint replace_from (old new : string) (skip : nat) (s : string)
  : string :=
  match s with
  | EmptyString => EmptyString
  | String c s' =>
      match skip with
      | S k => replace_from old new k s'
      | O =>
          if String.prefix old s
          then new ++ replace_from old new (String.length old - 1) s'
          else String c (replace_from old new 0 s')
      end
  end.

Definition replace (old new s : string) : string :=
  replace_from old new 0 s.

(** [str.lower] on the code points below 256. *)
Definition lower_char (c : ascii) : ascii :=
  let n := nat_of_ascii c in
  if (((65 <=? n) && (n <=? 90))
      || ((192 <=? n) && (n <=? 222) && negb (n =? 215)))%nat
  then ascii_of_nat (n + 32) else c.

Fixpoint lower (s : string) : string :=
  match s with
  | EmptyString => EmptyString
  | String c s' => String (lower_char c) (lower s')
  end.

(** ** The substitutions of [_clean_text_for_tts] *)

(** One character of the class [[\d:.-]]. *)
Definition is_marker_char (c : ascii) : bool :=
  is_decimal c || Ascii.eqb c ":" || Ascii.eqb c "." || Ascii.eqb c "-".

(** [[\d:.-]+\]] read from the head of [s]; [seen] records that the class
    has matched at least once.  The closing bracket is not in the class,
    so the greedy repetition never has to give a character back. *)
Fixpoint marker_body (seen : bool) (s : string) : option string :=
  match s with
  | EmptyString => None
  | String c s' =>
      if is_marker_char c then marker_body true s'
      else if Ascii.eqb c "]" && seen then Some s' else None
  end.

(** [\[[\d:.-]+\]] matched at the head of [s]: what follows the match. *)
Definition match_marker (s : string) : option string :=
  match s with
  | String c s' => if Ascii.eqb c "[" then marker_body false s' else None
  | EmptyString => None
  end.

(** [re.sub(r'\[[\d:.-]+\]', '', s)]: leftmost matches, one pass. *)
Fixpoint sub_marker_fuel (fuel : nat) (s : string) : string :=
  match fuel with
  | O => s
  | S f =>
      match s with
      | EmptyString => EmptyString
      | String c s' =>
          match match_marker s with
          | Some rest => sub_marker_fuel f rest
          | None => String c (sub_marker_fuel f s')
          end
      end
  end.

Definition sub_marker (s : string) : string :=
  sub_marker_fuel (String.length s) s.

(** [(.*?)d] read from the head of [t]: the shortest run of characters
    other than a newline that is followed by [d]; the run and what
    follows the closing [d]. *)
Fixpoint lazy_until (d t : string) : option (string * string) :=
  if String.prefix d t then Some (EmptyString, drop (String.length d) t)
  else
    match t with
    | EmptyString => None
    | String c t' =>
        if Ascii.eqb c newline then None
        else
          match lazy_until d t' with
          | Some (g, r) => Some (String c g, r)
          | None => None
          end
    end.

(** [re.sub(d (.*?) d, r'\1', s)] for a literal non-empty delimiter [d]. *)
Fixpoint sub_delim_fuel (d : string) (fuel : nat) (s : string) : string :=
  match fuel with
  | O => s
  | S f =>
      match s with
      | EmptyString => EmptyString
      | String c s' =>
          if String.prefix d s then
            match lazy_until d (drop (String.length d) s) with
            | Some (g, r) => g ++ sub_delim_fuel d f r
            | None => String c (sub_delim_fuel d f s')
            end
          else String c (sub_delim_fuel d f s')
      end
  end.

Definition sub_delim (d s : string) : string :=
  sub_delim_fuel d (String.length s) s.

(** [re.sub(p+, ' ', s)] for a one-character class [p]: [inside] tells
    that the previous character belonged to the run being replaced. *)
Fixpoint collapse_from (p : ascii -> bool) (inside : bool) (s : string)
  : string :=
  match s with
  | EmptyString => EmptyString
  | String c s' =>
      if p c then
        if inside then collapse_from p true s'
        else String " " (collapse_from p true s')
      else String c (collapse_from p false s')
  end.

Definition collapse (p : ascii -> bool) (s : string) : string :=
  collapse_from p false s.

(** ** Properties of strings used in the statements *)

(** Some position of [s] starts a bracketed timing marker. *)
Fixpoint has_marker (s : string) : bool :=
  match match_marker s with
  | Some _ => true
  | None =>
      match s with
      | EmptyString => false
      | String _ s' => has_marker s'
      end
  end.

(** No two neighbouring characters of [s] are both whitespace. *)
Fixpoint no_ws_pair (s : string) : bool :=
  match s with
  | String a (String b _ as s') =>
      negb (is_space a && is_space b) && no_ws_pair s'
  | _ => true
  end.

Definition has_newline (s : string) : bool :=
  any_char (fun c => Ascii.eqb c newline) s.

(** The first character of [s] is whitespace. *)
Definition head_space (s : string) : bool :=
  match s with
  | String c _ => is_space c
  | EmptyString => false
  end.

End PyStr.

(* ===================================================================== *)
(** * Exceptions and the state-and-error monad                            *)
(* ===================================================================== *)

Module Py.

(** The exception classes the modelled code raises or names in an
    [except] clause.  All of them derive from [Exception]. *)
Inductive exn_class :=
| Exception
| FileNotFoundError
| CalledProcessError
| TimeoutExpired
| ZeroDivisionError
| KeyError
| ValueError
| ImportError
| OSError.

Record exn := mk_exn { exn_cls : exn_class; exn_msg : string }.

(** [str(e)] *)
Definition str_of_exn (e : exn) : string := exn_msg e.

Definition exn_class_eqb (a b : exn_class) : bool :=
  match a, b with
  | Exception, Exception | FileNotFoundError, FileNotFoundError
  | CalledProcessError, CalledProcessError
  | TimeoutExpired, TimeoutExpired
  | ZeroDivisionError, ZeroDivisionError | KeyError, KeyError
  | ValueError, ValueError | ImportError, ImportError
  | OSError, OSError => true
  | _, _ => false
  end.

Inductive result (A : Type) :=
| Ok (a : A)
| Raise (e : exn).
Arguments Ok {A} a.
Arguments Raise {A} e.

(** A computation over a state [S] that returns or raises. *)
Definition M (S A : Type) : Type := S -> S * result A.

Definition ret {S A} (a : A) : M S A := fun s => (s, Ok a).

Definition raise {S A} (e : exn) : M S A := fun s => (s, Raise e).

Definition bind {S A B} (m : M S A) (k : A -> M S B) : M S B :=
  fun s =>
    match m s with
    | (s', Ok a) => k a s'
    | (s', Raise e) => (s', Raise e)
    end.

(** [try: m except Exception as e: h e] *)
Definition try_except {S A} (m : M S A) (h : exn -> M S A) : M S A :=
  fun s =>
    match m s with
    | (s', Ok a) => (s', Ok a)
    | (s', Raise e) => h e s'
    end.

(** [try: m except (c1, c2, ...): h]: other exceptions pass through. *)
Definition try_except_only {S A} (cs : list exn_class)
    (m : M S A) (h : exn -> M S A) : M S A :=
  fun s =>
    match m s with
    | (s', Ok a) => (s', Ok a)
    | (s', Raise e) =>
        if existsb (exn_class_eqb (exn_cls e)) cs then h e s'
        else (s', Raise e)
    end.

#[global] Instance M_ret {S} : MRet (M S) := fun A => @ret S A.
#[global] Instance M_bind {S} : MBind (M S) :=
  fun A B (k : A -> M S B) (m : M S A) => bind m k.

Definition modify {S} (f : S -> S) : M S unit := fun s => (f s, Ok tt).

(** The state of a run: the outside world and the calls made so far. *)
Record traced (W E : Type) := mk_traced { world : W; trace : list E }.
Arguments mk_traced {W E} world trace.
Arguments world {W E} t.
Arguments trace {W E} t.

(** Record one call to the outside. *)
Definition emit {W E} (e : E) : M (traced W E) unit :=
  modify (fun s => mk_traced (world s) (trace s ++ [e])).

(** Let the outside world answer. *)
Definition ask {W E A} (f : W -> W * result A) : M (traced W E) A :=
  fun s => let (w', r) := f (world s) in (mk_traced w' (trace s), r).

Definition is_ok {A} (r : result A) : bool :=
  match r with Ok _ => true | Raise _ => false end.

(** [os.path.join(a, b)] on a POSIX system. *)
Definition path_join (a b : string) : string :=
  if PyStr.startswith "/" b then b
  else if PyStr.is_empty a || PyStr.endswith "/" a then a ++ b
  else a ++ "/" ++ b.

(** Python's two-argument [max] and [min]: the first argument wins ties. *)
Definition Qlt_bool (a b : Q) : bool := negb (Qle_bool b a).
Definition py_max (a b : Q) : Q := if Qlt_bool a b then b else a.
Definition py_min (a b : Q) : Q := if Qlt_bool b a then b else a.

(** [int(x)] of a float: truncation toward zero. *)
Definition py_int (x : Q) : Z :=
  if Qle_bool 0 x then Qfloor x else Qceiling x.

End Py.


(* ===================================================================== *)
(** * generate_audio.py                                                   *)
(* ===================================================================== *)

Module Audio.
Import Py.

(** [AudioGenerator._clean_text_for_tts] *)
Definition _clean_text_for_tts (text : string) : string :=
  (* Remove timing markers *)
  let text := PyStr.sub_marker text in
  (* Remove markdown formatting *)
  let text := PyStr.sub_delim "**" text in
  let text := PyStr.sub_delim "*" text in
  let text := PyStr.sub_delim "`" text in
  (* Clean up multiple spaces and newlines *)
  let text := PyStr.collapse (fun c => Ascii.eqb c PyStr.newline) text in
  let text := PyStr.collapse PyStr.is_space text in
  (* Ensure proper sentence ending *)
  let text := PyStr.strip text in
  if PyStr.truthy text && negb (PyStr.endswith "." text)
  then text ++ "." else text.

(** What the generator asks of the outside: a speech engine, a
    subprocess, the [wave] writer. *)
Inductive event :=
| TTS (method : string) (text output_file : string)
| Subprocess (cmd : list string)
| WaveWrite (path : string) (frames : Z).

Record OS (W : Type) := mk_OS {
  (** one of the [_generate_with_*] methods, named by its engine *)
  tts_call : string -> string -> string -> W -> W * result string;
  (** [subprocess.run(cmd, check=True, capture_output=True)] *)
  subprocess_run_check : list string -> W -> W * result unit;
  (** [wave.open(path, 'w')] and the [writeframes] loop *)
  wave_write : string -> Z -> W -> W * result unit;
  (** the text of a number inside an f-string *)
  format_number : Q -> string
}.
Arguments tts_call {W} o.
Arguments subprocess_run_check {W} o.
Arguments wave_write {W} o.
Arguments format_number {W} o.

Record AudioGenerator := mk_AudioGenerator {
  temp_dir : string;
  tts_engine : string
}.

Section Generator.
Context {W : Type} (os : OS W) (self : AudioGenerator).

Abbreviation state := (traced W event).

Definition call_engine (method text output_file : string)
  : M state string :=
  emit (TTS method text output_file);;
  ask (tts_call os method text output_file).

Definition run_check (cmd : list string) : M state unit :=
  emit (Subprocess cmd);;
  ask (subprocess_run_check os cmd).

Definition write_silence (path : string) (frames : Z) : M state unit :=
  emit (WaveWrite path frames);;
  ask (wave_write os path frames).

(** [min(len(text.split()) * 0.5, 180)] *)
Definition silence_duration (text : string) : Q :=
  py_min (inject_Z (Z.of_nat (length (PyStr.split_ws text))) * (1 # 2))
         180.

(** [AudioGenerator._generate_fallback_audio] *)
Definition _generate_fallback_audio (text session_id : string)
  : M state string :=
  try_except
    (let output_file :=
       path_join (temp_dir self)
                 ("repo2reel_" ++ session_id ++ "_audio_silent.wav") in
     (* Try to create a short silent audio file using ffmpeg *)
     try_except_only [CalledProcessError; FileNotFoundError]
       (let duration := silence_duration text in
        run_check
          ["ffmpeg"; "-f"; "lavfi";
           "-i"; "anullsrc=duration=" ++ format_number os duration
                 ++ ":sample_rate=44100:channel_layout=mono";
           "-y"; output_file];;
        mret output_file)
       (fun _ =>
          (* Create a minimal WAV file manually *)
          let sample_rate := 44100%Q in
          let duration := silence_duration text in
          let frames := py_int (duration * sample_rate) in
          write_silence output_file frames;;
          mret output_file))
    (fun _ => raise (mk_exn Exception "Could not generate audio file")).

(** [AudioGenerator.generate_audio] *)
Definition generate_audio (text session_id : string) : M state string :=
  (* [text] is rebound by the first statement of the [try] block, which
     cannot raise, so the handler sees the cleaned text. *)
  let text := _clean_text_for_tts text in
  try_except
    (let output_file :=
       path_join (temp_dir self)
                 ("repo2reel_" ++ session_id ++ "_audio.wav") in
     if String.eqb (tts_engine self) "sapi" then
       call_engine "sapi" text output_file
     else if String.eqb (tts_engine self) "say" then
       call_engine "say" text output_file
     else if String.eqb (tts_engine self) "espeak" then
       call_engine "espeak" text output_file
     else if String.eqb (tts_engine self) "festival" then
       call_engine "festival" text output_file
     else if String.eqb (tts_engine self) "pyttsx3" then
       call_engine "pyttsx3" text output_file
     else if String.eqb (tts_engine self) "gtts" then
       call_engine "gtts" text output_file
     else
       call_engine "edge_tts" text output_file)
    (fun _ =>
       (* Try fallback method *)
       _generate_fallback_audio text session_id).

(** [generate_audio_from_text], for a generator already built. *)
Definition generate_audio_from_text (text session_id : string)
  : M state string :=
  try_except (generate_audio text session_id) (fun e => raise e).

End Generator.

(** ** Quantities of the statements *)

(** What is required of a cleaned text. *)
Definition clean_claim (r : string) : Prop :=
  PyStr.has_newline r = false
  /\ PyStr.has_marker r = false
  /\ PyStr.no_ws_pair r = true
  /\ (r <> EmptyString -> PyStr.endswith "." r = true).

(** The method [generate_audio] dispatches to. *)
Definition selected_method (self : AudioGenerator) : string :=
  if existsb (String.eqb (tts_engine self))
             ["sapi"; "say"; "espeak"; "festival"; "pyttsx3"; "gtts"]
  then tts_engine self else "edge_tts".

Definition audio_path (self : AudioGenerator) (session_id : string)
  : string :=
  path_join (temp_dir self) ("repo2reel_" ++ session_id ++ "_audio.wav").

Definition silent_path (self : AudioGenerator) (session_id : string)
  : string :=
  path_join (temp_dir self)
            ("repo2reel_" ++ session_id ++ "_audio_silent.wav").

(** The [ffmpeg] command of the fallback. *)
Definition silence_cmd {W} (os : OS W) (self : AudioGenerator)
    (text session_id : string) : list string :=
  ["ffmpeg"; "-f"; "lavfi";
   "-i"; "anullsrc=duration=" ++ format_number os (silence_duration text)
         ++ ":sample_rate=44100:channel_layout=mono";
   "-y"; silent_path self session_id].

Definition is_subprocess (e : event) : bool :=
  match e with Subprocess _ => true | _ => false end.

Definition could_not_generate : exn :=
  mk_exn Exception "Could not generate audio file".

(** The capability as claimed: a path is returned, and no subprocess is
    started on the way. *)
Definition never_fails_locally {W} (os : OS W) (self : AudioGenerator)
    (text session_id : string) (w : W) : Prop :=
  let (s', r) := generate_audio os self text session_id (mk_traced w []) in
  is_ok r = true /\ existsb is_subprocess (trace s') = false.

(** ** Two concrete machines *)

(** A machine without a working speech engine but with [ffmpeg]. *)
Definition os_no_engine : OS unit :=
  {| tts_call := fun _ _ _ w =>
       (w, Raise (mk_exn CalledProcessError "espeak: exit status 1"));
     subprocess_run_check := fun _ w => (w, Ok tt);
     wave_write := fun _ _ w => (w, Ok tt);
     format_number := fun _ => "1.5" |}.

(** A machine with neither a speech engine nor [ffmpeg]. *)
Definition os_bare : OS unit :=
  {| tts_call := fun _ _ _ w =>
       (w, Raise (mk_exn FileNotFoundError "espeak"));
     subprocess_run_check := fun _ w =>
       (w, Raise (mk_exn FileNotFoundError "ffmpeg"));
     wave_write := fun _ _ w => (w, Ok tt);
     format_number := fun _ => "1.5" |}.

Definition linux_generator : AudioGenerator :=
  {| temp_dir := "/tmp"; tts_engine := "espeak" |}.

End Audio.

(* ===================================================================== *)
(** * generate_video.py                                                   *)
(* ===================================================================== *)

Module Video.
Import Py.

(** The keys of [repo_analysis] the generator reads; [None] is a key
    that is absent, so that [dict.get] answers its default. *)
Record RepoAnalysis := mk_RepoAnalysis {
  repository_name : option string;
  technologies : option (list string);
  main_features : option (list string)
}.

(** One scene dictionary. *)
Record Scene := mk_Scene {
  type : string;
  duration : Q;
  text : string;
  title : string;
  color : string;
  start_time : Q;
  repo_name : string;
  scene_technologies : list string;
  features : list string
}.

Definition nl : string := String PyStr.newline EmptyString.

(** [range(0, len(l), size)] with [l[i:i+size]] at each step. *)
Fixpoint chunks_fuel {A} (fuel size : nat) (l : list A) : list (list A) :=
  match fuel with
  | O => []
  | S f =>
      match l with
      | [] => []
      | _ :: _ => take size l :: chunks_fuel f size (drop size l)
      end
  end.

Definition chunks {A} (size : nat) (l : list A) : list (list A) :=
  chunks_fuel (length l) size l.

(** [sections.append(s.strip())] guarded by [if s.strip()]. *)
Definition append_stripped (sections : list string) (s : string)
  : list string :=
  if PyStr.truthy (PyStr.strip s) then sections ++ [PyStr.strip s]
  else sections.

(** The loop over the lines of a script with timing markers; the state
    is [(sections, current_section)]. *)
Definition marker_step (st : list string * string) (line : string)
  : list string * string :=
  let (sections, current_section) := st in
  if PyStr.contains "[" line && PyStr.contains "]" line
     && PyStr.any_char PyStr.is_digit line
  then (append_stripped sections current_section, (line ++ nl)%string)
  else (sections, (current_section ++ line ++ nl)%string).

(** Split by timing markers first: [Some] when the branch returns. *)
Definition sections_by_markers (script : string) : option (list string) :=
  if PyStr.contains "[" script && PyStr.contains "]" script then
    let lines := PyStr.split nl script in
    let (sections, current_section) :=
      fold_left marker_step lines ([], EmptyString) in
    let sections := append_stripped sections current_section in
    if (2 <=? length sections)%nat then Some sections else None
  else None.

(** Fallback: split by paragraphs. *)
Definition sections_by_paragraphs (script : string)
  : option (list string) :=
  let paragraphs := PyStr.split (nl ++ nl) script in
  if (1 <? length paragraphs)%nat then
    Some (map PyStr.strip
            (filter (fun p => PyStr.truthy (PyStr.strip p) = true)
                    paragraphs))
  else None.

(** If no paragraphs, split by sentences. *)
Definition sections_by_sentences (script : string)
  : option (list string) :=
  let sentences := PyStr.split ". " script in
  if (4 <? length sentences)%nat then
    let section_size := Nat.max (length sentences / 4) 1 in
    Some (filter (fun s => PyStr.truthy s = true)
            (map (PyStr.join ". ") (chunks section_size sentences)))
  else None.

(** If too few sentences, split by words. *)
Definition sections_by_words (script : string) : option (list string) :=
  let words := PyStr.split_ws script in
  if (40 <? length words)%nat then
    let section_size := Nat.max (length words / 4) 20 in
    Some (filter (fun s => PyStr.truthy s = true)
            (map (PyStr.join " ") (chunks section_size words)))
  else None.

(** [VideoGenerator._split_script_into_sections] *)
Definition _split_script_into_sections (script : string) : list string :=
  match sections_by_markers script with
  | Some sections => sections
  | None =>
  match sections_by_paragraphs script with
  | Some sections => sections
  | None =>
  match sections_by_sentences script with
  | Some sections => sections
  | None =>
  match sections_by_words script with
  | Some sections => sections
  | None =>
      if PyStr.truthy script then [script] else ["Repository Overview"]
  end end end end.

(** [any(word in section_lower for word in words)] *)
Definition any_in (words : list string) (section_lower : string) : bool :=
  existsb (fun word => PyStr.contains word section_lower) words.

(** [VideoGenerator._determine_scene_type] *)
Definition _determine_scene_type (section : string)
    (technologies : list string) : string :=
  let section_lower := PyStr.lower section in
  if any_in ["welcome"; "introduction"; "hello"; "today"; "overview"]
            section_lower
  then "title"
  else if any_in ["feature"; "functionality"; "capability"; "includes"]
                 section_lower
  then "features"
  else if existsb (fun tech => PyStr.contains (PyStr.lower tech)
                                              section_lower)
                  technologies
  then "technology"
  else if any_in ["code"; "implementation"; "architecture"; "technical"]
                 section_lower
  then "code"
  else if any_in ["conclusion"; "summary"; "thank"; "explore"]
                 section_lower
  then "conclusion"
  else "content".

(** [VideoGenerator._extract_title_from_section] *)
Definition _extract_title_from_section (section repo_name : string)
  : string :=
  (* Remove timing markers *)
  let section :=
    if PyStr.contains "]" section
    then List.last (PyStr.split "]" section) EmptyString
    else section in
  (* [str.split] never returns an empty list *)
  match PyStr.split "." section with
  | first :: _ =>
      let title := PyStr.strip first in
      let title :=
        PyStr.strip
          (PyStr.replace "Today" "" (PyStr.replace "Welcome to" "" title)) in
      let title :=
        if (60 <? String.length title)%nat
        then (PyStr.take 57 title ++ "...")%string else title in
      if PyStr.truthy title then title else repo_name
  | [] => repo_name
  end.

Definition colors : list string :=
  ["#2563eb"; "#7c3aed"; "#059669"; "#dc2626";
   "#ea580c"; "#0891b2"; "#6366f1"; "#8b5cf6"].

Definition of_nat (n : nat) : Q := inject_Z (Z.of_nat n).

(** The body of the [try] block of [_create_scenes]; the division is the
    one statement that can raise. *)
Definition create_scenes_body (script : string) (repo : RepoAnalysis)
    (duration : Q) : result (list Scene) :=
  let repo_name := default "Repository" (repository_name repo) in
  let technologies := default [] (technologies repo) in
  let features := default [] (main_features repo) in
  (* Split script into sections for different scenes *)
  let script_sections := _split_script_into_sections script in
  match script_sections with
  | [] => Raise (mk_exn ZeroDivisionError "float division by zero")
  | _ :: _ =>
      let scene_duration := (duration / of_nat (length script_sections))%Q in
      Ok (imap
            (fun i section =>
               {| type := _determine_scene_type section technologies;
                  duration := scene_duration;
                  text := if (150 <? String.length section)%nat
                          then (PyStr.take 150 section ++ "...")%string
                          else section;
                  title := _extract_title_from_section section repo_name;
                  color := nth (i mod length colors) colors EmptyString;
                  start_time := (of_nat i * scene_duration)%Q;
                  repo_name := repo_name;
                  scene_technologies := take 6 technologies;
                  features := take 5 features |})
            script_sections)
  end.

(** [VideoGenerator._create_scenes] *)
Definition _create_scenes (script : string) (repo : RepoAnalysis)
    (duration : Q) : list Scene :=
  match create_scenes_body script repo duration with
  | Ok scenes => scenes
  | Raise _ =>
      (* Return a simple default scene *)
      [ {| type := "title";
           duration := duration;
           text := PyStr.take 200 script;
           title := default "Repository Overview" (repository_name repo);
           color := "#2563eb";
           start_time := 0;
           repo_name := default "Repository" (repository_name repo);
           scene_technologies := take 6 (default [] (technologies repo));
           features := take 5 (default [] (main_features repo)) |} ]
  end.

(** The duration estimate of [generate_video]:
    [min(max(words * 0.4, 30), 300)] with [words = len(script.split())]. *)
Definition estimate_duration (script : string) : Q :=
  let words := length (PyStr.split_ws script) in
  let duration := py_max (of_nat words * (2 # 5)) 30 in
  py_min duration 300.

(** The scenes [generate_video] hands to the renderer. *)
Definition generate_video_scenes (script : string) (repo : RepoAnalysis)
  : list Scene :=
  _create_scenes script repo (estimate_duration script).

(** ** Quantities of the statements *)

Definition total_duration (scenes : list Scene) : Q :=
  fold_right (fun sc acc => (duration sc + acc)%Q) 0%Q scenes.

(** [clamp(x, lo, hi)] as the specification writes it. *)
Definition clamp (x lo hi : Q) : Q :=
  if Qlt_bool x lo then lo else if Qlt_bool hi x then hi else x.

End Video.

(* ===================================================================== *)
(** * merge_av.py                                                         *)
(* ===================================================================== *)

Module Merge.
Import Py.

(** [subprocess.CompletedProcess] *)
Record CompletedProcess := mk_CompletedProcess {
  returncode : Z;
  stdout : string;
  stderr : string
}.

Inductive event :=
| Subprocess (cmd : list string) (timeout : Z).

Record OS (W : Type) := mk_OS {
  (** [os.path.exists] *)
  os_path_exists : string -> W -> bool;
  (** [subprocess.run(cmd, capture_output=True, text=True, timeout=t)] *)
  subprocess_run : list string -> Z -> W -> W * result CompletedProcess;
  (** [float(s)]; [None] is a [ValueError] *)
  float_of_string : string -> option Q;
  (** the text of a float: [str(x)] and [x] inside an f-string *)
  format_float : Q -> string
}.
Arguments os_path_exists {W} o.
Arguments subprocess_run {W} o.
Arguments float_of_string {W} o.
Arguments format_float {W} o.

Record AudioVideoMerger := mk_AudioVideoMerger { temp_dir : string }.

Definition nl : string := String PyStr.newline EmptyString.

Section Merger.
Context {W : Type} (os : OS W) (self : AudioVideoMerger).

Abbreviation state := (traced W event).

Definition run (cmd : list string) (timeout : Z)
  : M state CompletedProcess :=
  emit (Subprocess cmd timeout);;
  ask (subprocess_run os cmd timeout).

Definition path_exists (path : string) : M state bool :=
  fun s => (s, Ok (os_path_exists os path (world s))).

(** [float(text)] *)
Definition float (text : string) : M state Q :=
  match float_of_string os text with
  | Some x => mret x
  | None => raise (mk_exn ValueError "could not convert string to float")
  end.

Definition probe_cmd (file : string) : list string :=
  ["ffprobe"; "-v"; "quiet"; "-show_entries"; "format=duration";
   "-of"; "default=noprint_wrappers=1:nokey=1"; file].

(** [AudioVideoMerger._get_video_duration] *)
Definition _get_video_duration (video_file : string)
  : M state (option Q) :=
  try_except
    (result ← run (probe_cmd video_file) 30;
     if (returncode result =? 0)%Z
        && PyStr.truthy (PyStr.strip (stdout result))
     then duration ← float (PyStr.strip (stdout result));
          mret (Some duration)
     else mret None)
    (fun _ => mret None).

(** [AudioVideoMerger._get_audio_duration] *)
Definition _get_audio_duration (audio_file : string)
  : M state (option Q) :=
  try_except
    (result ← run (probe_cmd audio_file) 30;
     if (returncode result =? 0)%Z
        && PyStr.truthy (PyStr.strip (stdout result))
     then duration ← float (PyStr.strip (stdout result));
          mret (Some duration)
     else mret None)
    (fun _ => mret None).

(** [AudioVideoMerger._verify_video_file] *)
Definition _verify_video_file (video_file : string) : M state bool :=
  try_except
    (result ← run ["ffprobe"; "-v"; "quiet";
                   "-show_entries"; "format=duration"; video_file] 30;
     mret (returncode result =? 0)%Z)
    (fun _ => mret false).

Definition simple_merge_cmd (video_file audio_file output_file : string)
  : list string :=
  ["ffmpeg"; "-i"; video_file; "-i"; audio_file;
   "-c:v"; "copy"; "-c:a"; "aac";
   "-map"; "0:v:0"; "-map"; "1:a:0";
   "-shortest";
   "-avoid_negative_ts"; "make_zero";
   "-y"; output_file].

(** [AudioVideoMerger._simple_merge] *)
Definition _simple_merge (video_file audio_file output_file : string)
  : M state bool :=
  try_except
    (result ← run (simple_merge_cmd video_file audio_file output_file)
                  300;
     if (returncode result =? 0)%Z then mret true else mret false)
    (fun _ => mret false).

Definition audio_loop_cmd (video_file audio_file output_file : string)
    (target_duration : Q) : list string :=
  ["ffmpeg"; "-i"; video_file;
   "-stream_loop"; "-1";
   "-i"; audio_file;
   "-c:v"; "copy"; "-c:a"; "aac";
   "-map"; "0:v:0"; "-map"; "1:a:0";
   "-t"; format_float os target_duration;
   "-avoid_negative_ts"; "make_zero";
   "-y"; output_file].

(** [AudioVideoMerger._merge_with_audio_loop] *)
Definition _merge_with_audio_loop
    (video_file audio_file output_file : string) (target_duration : Q)
  : M state bool :=
  try_except
    (result ← run (audio_loop_cmd video_file audio_file output_file
                                  target_duration) 300;
     if (returncode result =? 0)%Z then mret true
     else
       (* Try fallback without looping *)
       _simple_merge video_file audio_file output_file)
    (fun _ => mret false).

Definition speed_adjust_cmd (video_file audio_file output_file : string)
    (speed_factor : Q) : list string :=
  ["ffmpeg"; "-i"; video_file; "-i"; audio_file;
   "-filter_complex";
   "[0:v]setpts=PTS/" ++ format_float os speed_factor ++ "[v]";
   "-map"; "[v]"; "-map"; "1:a:0";
   "-c:a"; "aac";
   "-avoid_negative_ts"; "make_zero";
   "-y"; output_file].

(** [a / b] on floats *)
Definition float_div (a b : Q) : M state Q :=
  if Qeq_bool b 0
  then raise (mk_exn ZeroDivisionError "float division by zero")
  else mret (a / b)%Q.

(** [AudioVideoMerger._merge_with_video_speed_adjust] *)
Definition _merge_with_video_speed_adjust
    (video_file audio_file output_file : string) (target_duration : Q)
  : M state bool :=
  try_except
    ((* Calculate speed factor *)
     video_duration ← _get_video_duration video_file;
     match video_duration with
     | None => _simple_merge video_file audio_file output_file
     | Some video_duration =>
         speed_factor ← float_div video_duration target_duration;
         (* Limit speed adjustment to reasonable range *)
         if Qlt_bool speed_factor (1 # 2) || Qlt_bool 2 speed_factor
         then _simple_merge video_file audio_file output_file
         else
           result ← run (speed_adjust_cmd video_file audio_file
                                          output_file speed_factor) 300;
           if (returncode result =? 0)%Z then mret true
           else _simple_merge video_file audio_file output_file
     end)
    (fun _ => mret false).

(** [AudioVideoMerger._merge_with_ffmpeg] *)
Definition _merge_with_ffmpeg (video_file audio_file output_file : string)
  : M state bool :=
  try_except
    ((* Get video and audio durations *)
     video_duration ← _get_video_duration video_file;
     audio_duration ← _get_audio_duration audio_file;
     match video_duration, audio_duration with
     | Some video_duration, Some audio_duration =>
         (* Determine which approach to use based on duration
            difference *)
         let duration_diff := Qabs (video_duration - audio_duration) in
         if Qlt_bool duration_diff 3 then
           _simple_merge video_file audio_file output_file
         else if Qlt_bool audio_duration video_duration then
           _merge_with_audio_loop video_file audio_file output_file
                                  video_duration
         else
           _merge_with_video_speed_adjust video_file audio_file
                                          output_file audio_duration
     | _, _ => _simple_merge video_file audio_file output_file
     end)
    (fun _ => mret false).

(** [AudioVideoMerger.merge_audio_video] *)
Definition merge_audio_video (video_file audio_file session_id : string)
  : M state string :=
  try_except
    (video_exists ← path_exists video_file;
     if negb video_exists then
       raise (mk_exn FileNotFoundError
                     ("Video file not found: " ++ video_file))
     else
     audio_exists ← path_exists audio_file;
     if negb audio_exists then mret video_file
     else
     let output_file :=
       path_join (temp_dir self)
                 ("repo2reel_" ++ session_id ++ "_final.mp4") in
     (* Use ffmpeg to merge audio and video *)
     success ← _merge_with_ffmpeg video_file audio_file output_file;
     output_exists ←
       (if (success : bool) then path_exists output_file
        else mret false);
     if success && output_exists then
       (* Verify the output file is valid *)
       verified ← _verify_video_file output_file;
       if (verified : bool) then mret output_file else mret video_file
     else
       (* Fallback: return video without audio if merge fails *)
       mret video_file)
    (fun _ =>
       (* Return video file as fallback *)
       mret video_file).

(** The module-level [merge_audio_video], for a merger already built. *)
Definition merge_audio_video_main
    (video_file audio_file session_id : string) : M state string :=
  try_except
    (merge_audio_video video_file audio_file session_id)
    (fun _ => mret video_file).

End Merger.

(** ** Strategies, as the specification names them *)

Inductive Strategy := DirectMux | AudioLoop | VideoTimeScale.

(** The method of the merger that carries a strategy out, given the
    probed durations. *)
Definition run_strategy {W} (os : OS W) (st : Strategy)
    (video_file audio_file output_file : string) (Dv Da : Q)
  : M (traced W event) bool :=
  match st with
  | DirectMux => _simple_merge os video_file audio_file output_file
  | AudioLoop =>
      _merge_with_audio_loop os video_file audio_file output_file Dv
  | VideoTimeScale =>
      _merge_with_video_speed_adjust os video_file audio_file
                                     output_file Da
  end.

(** The condition the specification attaches to each strategy when both
    durations were probed. *)
Definition strategy_condition (st : Strategy) (Dv Da : Q) : Prop :=
  match st with
  | DirectMux => (Qabs (Dv - Da) < 3)%Q
  | AudioLoop => (Da < Dv)%Q /\ (3 <= Qabs (Dv - Da))%Q
  | VideoTimeScale => (Dv < Da)%Q /\ (3 <= Qabs (Dv - Da))%Q
  end.

(** The events a run has added to a trace. *)
Definition new_events {W} (before after : traced W event) : list event :=
  drop (length (trace before)) (trace after).

(** The operation as claimed: a missing video makes it fail. *)
Definition fails_when_video_missing {W} (os : OS W)
    (self : AudioVideoMerger) (video_file audio_file session_id : string)
    (s : traced W event) : Prop :=
  os_path_exists os video_file (world s) = false ->
  exists e, (merge_audio_video os self video_file audio_file session_id s).2
            = Raise e.

(** ** A concrete machine

    On [os_lab dv da], [ffprobe] prints [dv] for the video and [da] for
    the audio, every [ffmpeg] run succeeds, and the files of [existing]
    exist. *)
Definition existing : list string :=
  ["/tmp/video.mp4"; "/tmp/audio.wav"; "/tmp/repo2reel_s1_final.mp4"].

Definition os_lab (dv da : string) : OS unit :=
  {| os_path_exists := fun path _ => existsb (String.eqb path) existing;
     subprocess_run := fun cmd _ w =>
       match cmd with
       | prog :: _ =>
           if String.eqb prog "ffprobe" then
             if String.eqb (List.last cmd "") "/tmp/video.mp4"
             then (w, Ok (mk_CompletedProcess 0 (dv ++ nl) ""))
             else (w, Ok (mk_CompletedProcess 0 (da ++ nl) ""))
           else (w, Ok (mk_CompletedProcess 0 "" ""))
       | [] => (w, Raise (mk_exn ValueError "empty command"))
       end;
     float_of_string := fun text =>
       if String.eqb text "8.0" then Some 8%Q
       else if String.eqb text "10.0" then Some 10%Q
       else if String.eqb text "10.5" then Some (21 # 2)%Q
       else if String.eqb text "12.0" then Some 12%Q
       else if String.eqb text "40.0" then Some 40%Q
       else None;
     format_float := fun x =>
       if Qeq_bool x (2 # 3) then "0.6666666666666666"
       else if Qeq_bool x 40 then "40.0"
       else "8.0" |}.

(** The video lasts 8 seconds and the audio 12. *)
Definition os_demo : OS unit := os_lab "8.0" "12.0".

Definition demo_merger : AudioVideoMerger := {| temp_dir := "/tmp" |}.

End Merge.

(* ===================================================================== *)
(** * llm_utils.py                                                        *)
(* ===================================================================== *)

Module LLM.
Import Py.

Inductive event :=
| Provider (method : string) (prompt : string) (max_length : Z)
| Transformers (prompt : string) (max_length : Z).

Record OS (W : Type) := mk_OS {
  (** one of the remote [_generate_with_*] methods, named by its service:
      the request, the status check and the parsing of the answer *)
  provider_call : string -> string -> Z -> W -> W * result string;
  (** the [transformers] pipeline of [_generate_with_local];
      an [ImportError] when the library is missing *)
  transformers_pipeline : string -> Z -> W -> W * result string;
  (** [_template_based_generation], which catches whatever it raises *)
  template_text : string -> string
}.
Arguments provider_call {W} o.
Arguments transformers_pipeline {W} o.
Arguments template_text {W} o.

Record LLMProcessor := mk_LLMProcessor {
  openai_key : option string;
  huggingface_key : option string;
  together_key : option string;
  anthropic_key : option string;
  groq_key : option string;
  service : string
}.

(** Truthiness of what [os.environ.get] answers. *)
Definition key_set (key : option string) : bool :=
  match key with
  | Some k => PyStr.truthy k
  | None => false
  end.

(** [LLMProcessor._determine_service] *)
Definition _determine_service
    (openai huggingface together anthropic groq : option string)
  : string :=
  if key_set groq then "groq"  (* Free and fast *)
  else if key_set openai then "openai"
  else if key_set anthropic then "anthropic"
  else if key_set together then "together"
  else if key_set huggingface then "huggingface"
  else "local".  (* Use local/free alternatives *)

(** [LLMProcessor.__init__] in the environment [environ] *)
Definition init (environ : gmap string string) : LLMProcessor :=
  let openai := environ !! "OPENAI_API_KEY" in
  let huggingface := environ !! "HUGGINGFACE_API_KEY" in
  let together := environ !! "TOGETHER_API_KEY" in
  let anthropic := environ !! "ANTHROPIC_API_KEY" in
  let groq := environ !! "GROQ_API_KEY" in
  {| openai_key := openai;
     huggingface_key := huggingface;
     together_key := together;
     anthropic_key := anthropic;
     groq_key := groq;
     service :=
       _determine_service openai huggingface together anthropic groq |}.

Section Processor.
Context {W : Type} (os : OS W).

Abbreviation state := (traced W event).

Definition call_provider (method prompt : string) (max_length : Z)
  : M state string :=
  emit (Provider method prompt max_length);;
  ask (provider_call os method prompt max_length).

(** [LLMProcessor._generate_with_local] *)
Definition _generate_with_local (prompt : string) (max_length : Z)
  : M state string :=
  try_except
    (try_except_only [ImportError]
       (emit (Transformers prompt max_length);;
        ask (transformers_pipeline os prompt max_length))
       (fun _ => mret (template_text os prompt)))
    (fun _ => mret (template_text os prompt)).

(** [LLMProcessor.generate_text] *)
Definition generate_text (self : LLMProcessor) (prompt : string)
    (max_length : Z) : M state string :=
  try_except
    (if String.eqb (service self) "groq" then
       call_provider "groq" prompt max_length
     else if String.eqb (service self) "openai" then
       call_provider "openai" prompt max_length
     else if String.eqb (service self) "anthropic" then
       call_provider "anthropic" prompt max_length
     else if String.eqb (service self) "together" then
       call_provider "together" prompt max_length
     else if String.eqb (service self) "huggingface" then
       call_provider "huggingface" prompt max_length
     else
       _generate_with_local prompt max_length)
    (fun _ =>
       (* Fallback to local generation *)
       _generate_with_local prompt max_length).

(** ** The cascade of the specification

    Attempt each provider of an ordered list in turn, continue after a
    failure, finish with the local fallback. *)
Fixpoint cascade (providers : list string) (prompt : string)
    (max_length : Z) : M state string :=
  match providers with
  | [] => _generate_with_local prompt max_length
  | p :: rest =>
      try_except (call_provider p prompt max_length)
                 (fun _ => cascade rest prompt max_length)
  end.

End Processor.

(** The providers whose credential is present, in the order of
    preference of [_determine_service]. *)
Definition configured (environ : gmap string string) : list string :=
  (if key_set (environ !! "GROQ_API_KEY") then ["groq"] else [])
  ++ (if key_set (environ !! "OPENAI_API_KEY") then ["openai"] else [])
  ++ (if key_set (environ !! "ANTHROPIC_API_KEY") then ["anthropic"]
      else [])
  ++ (if key_set (environ !! "TOGETHER_API_KEY") then ["together"]
      else [])
  ++ (if key_set (environ !! "HUGGINGFACE_API_KEY") then ["huggingface"]
      else []).

(** The remote methods a trace shows, in the order of their calls. *)
Definition providers_called (t : list event) : list string :=
  omap (fun e => match e with
                 | Provider p _ _ => Some p
                 | Transformers _ _ => None
                 end) t.

(** ** A concrete machine

    Two credentials are set; the first service answers with an error,
    the second would answer, and [transformers] is not installed. *)
Definition two_keys : gmap string string :=
  <["GROQ_API_KEY" := "gsk"]> (<["OPENAI_API_KEY" := "sk"]> ∅).

Definition os_groq_down : OS unit :=
  {| provider_call := fun method _ _ w =>
       if String.eqb method "groq"
       then (w, Raise (mk_exn Exception "Groq API error: 503"))
       else (w, Ok "Narration from the second provider.");
     transformers_pipeline := fun _ _ w =>
       (w, Raise (mk_exn ImportError "No module named 'transformers'"));
     template_text := fun _ => "Narration from the local template." |}.

End LLM.

(* ===================================================================== *)
(** * app.py                                                              *)
(* ===================================================================== *)

Module App.
Import Py.

(** One entry of [processing_status]. *)
Record Session := mk_Session {
  status : string;
  progress : Z;
  message : string;
  error : option string;
  result_file : option string;
  github_url : string
}.

Abbreviation registry := (gmap string Session).

(** What a request is answered with. *)
Inductive Response :=
| RedirectIndex (flash : string)
| RedirectProcessing (session_id : string)
| Json (code : Z) (body : option Session).

(** The stages the worker calls, each of which may raise. *)
Record Stages (W Analysis : Type) := mk_Stages {
  (** [GraphRAGProcessor()], [LLMProcessor()], [PromptGenerator()] *)
  init_processors : W -> W * result unit;
  analyze_repository : string -> W -> W * result Analysis;
  generate_video_script_prompt : Analysis -> W -> W * result string;
  generate_text : string -> Z -> W -> W * result string;
  generate_audio_from_text : string -> string -> W -> W * result string;
  generate_video_from_script :
    string -> Analysis -> string -> W -> W * result string;
  merge_audio_video : string -> string -> string -> W -> W * result string
}.
Arguments init_processors {W Analysis} s.
Arguments analyze_repository {W Analysis} s.
Arguments generate_video_script_prompt {W Analysis} s.
Arguments generate_text {W Analysis} s.
Arguments generate_audio_from_text {W Analysis} s.
Arguments generate_video_from_script {W Analysis} s.
Arguments merge_audio_video {W Analysis} s.

(** The state of the application: the outside world, the global
    [processing_status], and every value it has held since, oldest
    first, which is what successive status requests can observe. *)
Record state (W : Type) := mk_state {
  world : W;
  processing_status : registry;
  snapshots : list registry
}.
Arguments mk_state {W} world processing_status snapshots.
Arguments world {W} s.
Arguments processing_status {W} s.
Arguments snapshots {W} s.

Definition set_registry {W} (reg : registry) (s : state W) : state W :=
  mk_state (world s) reg (snapshots s ++ [reg]).

(** [processing_status[session_id].update(...)] with the function [upd]
    standing for the keys written. *)
Definition update {W} (session_id : string) (upd : Session -> Session)
  : M (state W) unit :=
  fun s =>
    match processing_status s !! session_id with
    | Some entry =>
        (set_registry (<[session_id := upd entry]> (processing_status s)) s,
         Ok tt)
    | None => (s, Raise (mk_exn KeyError session_id))
    end.

Definition call {W A} (f : W -> W * result A) : M (state W) A :=
  fun s =>
    let (w', r) := f (world s) in
    (mk_state w' (processing_status s) (snapshots s), r).

(** The URL checks of [process_repository]: [None] when the reference is
    accepted, the flashed message otherwise. *)
Definition validate (github_url : string) : option string :=
  if PyStr.is_empty github_url then
    Some "Please provide a GitHub repository URL"
  else if negb (PyStr.startswith "https://github.com/" github_url
                || PyStr.startswith "http://github.com/" github_url) then
    Some "Please provide a valid GitHub repository URL"
  else
    let parts :=
      PyStr.split "/"
        (PyStr.replace "http://github.com/" ""
           (PyStr.replace "https://github.com/" "" github_url)) in
    match parts with
    | owner :: repo :: _ =>
        if PyStr.is_empty owner || PyStr.is_empty repo then
          Some ("Please provide a valid GitHub repository URL "
                ++ "with owner and repository name")
        else None
    | _ =>
        Some ("Please provide a valid GitHub repository URL "
              ++ "with owner and repository name")
    end.

(** [process_repository] up to the start of the worker thread;
    [form_url] is the submitted form field and [uuid] the fresh
    identifier drawn for the session. *)
Definition process_repository {W} (form_url : option string)
    (uuid : string) (s : state W) : state W * Response :=
  let github_url := PyStr.strip (default "" form_url) in
  match validate github_url with
  | Some flash => (s, RedirectIndex flash)
  | None =>
      let session_id := uuid in
      (* Initialize processing status *)
      (set_registry
         (<[session_id :=
              {| status := "starting";
                 progress := 0;
                 message := "Initializing repository processing...";
                 error := None;
                 result_file := None;
                 github_url := github_url |}]> (processing_status s)) s,
       RedirectProcessing session_id)
  end.

Section Worker.
Context {W Analysis : Type} (stages : Stages W Analysis).

(** [process_repository_background] *)
Definition process_repository_background
    (github_url session_id : string) : M (state W) unit :=
  try_except
    ((* Update status - Repository Analysis *)
     update session_id (fun e =>
       {| status := "analyzing";
          progress := 10;
          message := "Downloading and analyzing repository content...";
          error := error e;
          result_file := result_file e;
          github_url := App.github_url e |});;
     (* Initialize processors *)
     call (init_processors stages);;
     (* Analyze repository using GraphRAG *)
     repo_analysis ← call (analyze_repository stages github_url);
     (* Update status - Script Generation *)
     update session_id (fun e =>
       {| status := status e;
          progress := 30;
          message := "Generating video script from repository analysis...";
          error := error e;
          result_file := result_file e;
          github_url := App.github_url e |});;
     (* Generate video script using LLM *)
     script_prompt ←
       call (generate_video_script_prompt stages repo_analysis);
     video_script ← call (generate_text stages script_prompt 800);
     (* Update status - Audio Generation *)
     update session_id (fun e =>
       {| status := status e;
          progress := 50;
          message := "Creating audio narration from script...";
          error := error e;
          result_file := result_file e;
          github_url := App.github_url e |});;
     (* Generate audio from script *)
     audio_file ←
       call (generate_audio_from_text stages video_script session_id);
     (* Update status - Video Generation *)
     update session_id (fun e =>
       {| status := status e;
          progress := 70;
          message := "Generating video content and visuals...";
          error := error e;
          result_file := result_file e;
          github_url := App.github_url e |});;
     (* Generate video *)
     video_file ←
       call (generate_video_from_script stages video_script
                                        repo_analysis session_id);
     (* Update status - Merging *)
     update session_id (fun e =>
       {| status := status e;
          progress := 90;
          message := "Merging audio and video components...";
          error := error e;
          result_file := result_file e;
          github_url := App.github_url e |});;
     (* Merge audio and video *)
     final_video ←
       call (merge_audio_video stages video_file audio_file session_id);
     (* Complete *)
     update session_id (fun e =>
       {| status := "completed";
          progress := 100;
          message := "Video generation completed successfully!";
          error := error e;
          result_file := Some final_video;
          github_url := App.github_url e |}))
    (fun e =>
       let error_msg := str_of_exn e in
       update session_id (fun entry =>
         {| status := "error";
            progress := progress entry;
            message := "Error: " ++ error_msg;
            error := Some error_msg;
            result_file := result_file entry;
            github_url := App.github_url entry |})).

End Worker.

(** [get_status] *)
Definition get_status (session_id : string) (reg : registry) : Response :=
  match reg !! session_id with
  | None => Json 404 None
  | Some status => Json 200 (Some status)
  end.

(** ** What a poller sees of one session *)

(** The [(status, progress)] pairs of [session_id] in successive values
    of the registry. *)
Definition observed (session_id : string) (history : list registry)
  : list (string * Z) :=
  omap (fun reg : registry =>
          match get_status session_id reg with
          | Json _ (Some e) => Some (status e, progress e)
          | _ => None
          end) history.

(** The checkpoints the worker passes through when nothing fails. *)
Definition checkpoints : list (string * Z) :=
  [("analyzing", 10%Z); ("analyzing", 30%Z); ("analyzing", 50%Z);
   ("analyzing", 70%Z); ("analyzing", 90%Z); ("completed", 100%Z)].

(** ** The stage sequence of the specification

    created, analyzing, scripting, synthesizing_audio, rendering_video,
    merging, completed: each stage with its fixed checkpoint. *)
Definition stage_checkpoint (st : string) : option Z :=
  if String.eqb st "created" then Some 0%Z
  else if String.eqb st "analyzing" then Some 10%Z
  else if String.eqb st "scripting" then Some 30%Z
  else if String.eqb st "synthesizing_audio" then Some 50%Z
  else if String.eqb st "rendering_video" then Some 70%Z
  else if String.eqb st "merging" then Some 90%Z
  else if String.eqb st "completed" then Some 100%Z
  else None.

(** Progress tracks the position of the status in the sequence. *)
Definition tracks (obs : string * Z) : bool :=
  match stage_checkpoint (fst obs) with
  | Some p => (p =? snd obs)%Z
  | None => String.eqb (fst obs) "failed"
  end.

(** ** Quantities of the statements *)

(** What the worker has shown of [session_id] since the state [s0]:
    the registry values added are observed as [seen], and [entry] is the
    current one. *)
Definition shown {W} (session_id : string) (s0 s : state W)
    (seen : list (string * Z)) (entry : Session) : Prop :=
  exists new,
    snapshots s = (snapshots s0 ++ new)%list
    /\ Forall (fun reg : registry => is_Some (reg !! session_id)) new
    /\ observed session_id new = seen
    /\ processing_status s !! session_id = Some entry.

(** What is observed when the first [n] checkpoints are reached: all six,
    or fewer followed by the error entry, which keeps the progress of
    the last checkpoint reached. *)
Definition outcome (n : nat) : list (string * Z) :=
  (take n checkpoints
   ++ (if (n =? 6)%nat then []
       else [("error", snd (nth (n - 1) checkpoints ("", 0%Z)))]))%list.

Fixpoint nondecreasing (l : list Z) : bool :=
  match l with
  | a :: (b :: _) as rest => (a <=? b)%Z && nondecreasing rest
  | _ => true
  end.

(** ** Concrete runs *)

Definition stages_ok : Stages unit unit :=
  {| init_processors := fun w => (w, Ok tt);
     analyze_repository := fun _ w => (w, Ok tt);
     generate_video_script_prompt := fun _ w => (w, Ok "prompt");
     generate_text := fun _ _ w => (w, Ok "script");
     generate_audio_from_text := fun _ _ w => (w, Ok "/tmp/a.wav");
     generate_video_from_script := fun _ _ _ w => (w, Ok "/tmp/v.mp4");
     merge_audio_video := fun _ _ _ w => (w, Ok "/tmp/final.mp4") |}.

(** The renderer raises. *)
Definition stages_render_fails : Stages unit unit :=
  {| init_processors := fun w => (w, Ok tt);
     analyze_repository := fun _ w => (w, Ok tt);
     generate_video_script_prompt := fun _ w => (w, Ok "prompt");
     generate_text := fun _ _ w => (w, Ok "script");
     generate_audio_from_text := fun _ _ w => (w, Ok "/tmp/a.wav");
     generate_video_from_script := fun _ _ _ w =>
       (w, Raise (mk_exn Exception "ffmpeg not found"));
     merge_audio_video := fun _ _ _ w => (w, Ok "/tmp/final.mp4") |}.

Definition demo_url : string := "https://github.com/owner/repo".

(** The application just after the submission of [demo_url]. *)
Definition submitted : state unit :=
  (process_repository (Some demo_url) "id1" (mk_state tt ∅ [])).1.

End App.

(* ===================================================================== *)
(** * merge_av.py: background music, and the cost of a merge              *)
(* ===================================================================== *)

Module MergeMore.
Import Py Merge.

Section Music.
Context {W : Type} (os : OS W) (self : AudioVideoMerger).

Definition music_cmd (video_file music_file output_file : string)
    (volume : Q) : list string :=
  ["ffmpeg"; "-i"; video_file; "-i"; music_file;
   "-filter_complex";
   "[1:a]volume=" ++ format_float os volume
   ++ "[music];[0:a][music]amix=inputs=2[audio]";
   "-map"; "0:v"; "-map"; "[audio]";
   "-c:v"; "copy"; "-c:a"; "aac";
   "-shortest"; "-y"; output_file].

(** [AudioVideoMerger.add_background_music] *)
Definition add_background_music
    (video_file music_file session_id : string) (volume : Q)
  : M (traced W event) string :=
  try_except
    (music_exists ← path_exists os music_file;
     if negb music_exists then mret video_file
     else
     let output_file :=
       path_join (temp_dir self)
                 ("repo2reel_" ++ session_id ++ "_with_music.mp4") in
     result ← run os (music_cmd video_file music_file output_file volume)
                  300;
     if (returncode result =? 0)%Z then mret output_file
     else mret video_file)
    (fun _ => mret video_file).

End Music.

(** ** Quantities of the statements *)

Definition final_path (self : AudioVideoMerger) (session_id : string)
  : string :=
  path_join (temp_dir self) ("repo2reel_" ++ session_id ++ "_final.mp4").

Definition music_path (self : AudioVideoMerger) (session_id : string)
  : string :=
  path_join (temp_dir self)
            ("repo2reel_" ++ session_id ++ "_with_music.mp4").

Definition timeout_of (e : event) : Z :=
  match e with Subprocess _ timeout => timeout end.

(** The seconds a list of subprocess runs may take, each run to its
    timeout. *)
Definition total_timeout (evs : list event) : Z :=
  fold_right (fun e acc => (timeout_of e + acc)%Z) 0%Z evs.

(** The run from [s] to [s'] has started at most [n] subprocesses, whose
    timeouts add up to at most [t] seconds. *)
Definition bounded {W} (n : nat) (t : Z) (s s' : traced W event) : Prop :=
  exists evs,
    trace s' = (trace s ++ evs)%list
    /\ (length evs <= n)%nat
    /\ (total_timeout evs <= t)%Z.

(** ** A machine on which the rescaling fails

    Like [os_lab "8.0" "12.0"], except that the [setpts] command exits
    with status 1. *)
Definition os_rescale_fails : OS unit :=
  {| os_path_exists := os_path_exists (os_lab "8.0" "12.0");
     subprocess_run := fun cmd timeout w =>
       if existsb (String.eqb "-filter_complex") cmd
       then (w, Ok (mk_CompletedProcess 1 "" "Error while filtering"))
       else subprocess_run (os_lab "8.0" "12.0") cmd timeout w;
     float_of_string := float_of_string (os_lab "8.0" "12.0");
     format_float := format_float (os_lab "8.0" "12.0") |}.

End MergeMore.

(* ===================================================================== *)
(** * app.py: the pages of a session                                      *)
(* ===================================================================== *)

Module AppRoutes.
Import Py App.

(** What the session routes answer with. *)
Inductive Page :=
| ToIndex (flash : string)
| ToProcessing (session_id : string)
| ToResult (session_id : string)
| ProcessingPage (status : Session) (session_id : string)
| ResultPage (status : Session) (session_id : string)
| SendFile (path download_name : string).

(** Truthiness of [status['result_file']]. *)
Definition result_file_set (e : Session) : bool :=
  match result_file e with
  | Some path => PyStr.truthy path
  | None => false
  end.

(** [processing] *)
Definition processing (session_id : string) (reg : registry) : Page :=
  match reg !! session_id with
  | None => ToIndex "Invalid or expired session ID"
  | Some status =>
      if String.eqb (App.status status) "completed"
      then ToResult session_id
      else ProcessingPage status session_id
  end.

(** [result] *)
Definition result (session_id : string) (reg : registry) : Page :=
  match reg !! session_id with
  | None => ToIndex "Invalid or expired session ID"
  | Some status =>
      if negb (String.eqb (App.status status) "completed")
      then ToProcessing session_id
      else ResultPage status session_id
  end.

(** [download_video]; [path_exists] is [os.path.exists] and [send_file]
    tells whether Flask's [send_file] returns or raises. *)
Definition download_video (path_exists : string -> bool)
    (send_file : string -> Py.result unit)
    (session_id : string) (reg : registry) : Page :=
  match reg !! session_id with
  | None => ToIndex "Invalid or expired session ID"
  | Some status =>
      if negb (String.eqb (App.status status) "completed")
         || negb (result_file_set status)
      then ToIndex "Video not ready for download"
      else
        let path := default "" (result_file status) in
        if negb (path_exists path) then ToIndex "Video file not found"
        else
          match send_file path with
          | Ok _ =>
              SendFile path
                ("repo2reel_" ++ PyStr.take 8 session_id ++ ".mp4")
          | Raise _ => ToIndex "Error downloading video"
          end
  end.

(** ** Quantities of the statements *)

(** The worker has left every session but [session_id] as it was in [s0],
    in each value the registry has taken since and in the current one,
    where [session_id] holds [entry]. *)
Definition kept {W} (session_id : string) (s0 s : state W)
    (entry : Session) : Prop :=
  exists new,
    snapshots s = (snapshots s0 ++ new)%list
    /\ Forall (fun reg : registry =>
                forall other, other <> session_id ->
                  reg !! other = processing_status s0 !! other) new
    /\ (forall other, other <> session_id ->
          processing_status s !! other = processing_status s0 !! other)
    /\ processing_status s !! session_id = Some entry.

(** ** A run in which the analysis fails *)

Definition stages_analysis_fails : Stages unit unit :=
  {| init_processors := fun w => (w, Ok tt);
     analyze_repository := fun _ w =>
       (w, Raise (mk_exn Exception
                    "Failed to analyze repository: no accessible branches"));
     generate_video_script_prompt := fun _ w => (w, Ok "prompt");
     generate_text := fun _ _ w => (w, Ok "script");
     generate_audio_from_text := fun _ _ w => (w, Ok "/tmp/a.wav");
     generate_video_from_script := fun _ _ _ w => (w, Ok "/tmp/v.mp4");
     merge_audio_video := fun _ _ _ w => (w, Ok "/tmp/final.mp4") |}.

End AppRoutes.

(* ===================================================================== *)
(** * generate_video.py: text wrapping and the frames of a video          *)
(* ===================================================================== *)

Module VideoFrames.
Import Py Video.

(** One turn of the loop of [_wrap_text]; the state is
    [(lines, current_line, current_length)]. *)
Definition wrap_step (width : Z)
    (st : list string * list string * Z) (word : string)
  : list string * list string * Z :=
  let '(lines, current_line, current_length) := st in
  let len := Z.of_nat (String.length word) in
  if (current_length + len + 1 <=? width)%Z then
    (lines, (current_line ++ [word])%list, (current_length + len + 1)%Z)
  else
    (match current_line with
     | [] => lines
     | _ :: _ => (lines ++ [PyStr.join " " current_line])%list
     end,
     [word], len).

(** The list [lines] of [_wrap_text] when it returns. *)
Definition wrap_lines (text : string) (width : Z) : list string :=
  let words := PyStr.split_ws text in
  let '(lines, current_line, _) :=
    fold_left (wrap_step width) words ([], [], 0%Z) in
  match current_line with
  | [] => lines
  | _ :: _ => (lines ++ [PyStr.join " " current_line])%list
  end.

(** [VideoGenerator._wrap_text] *)
Definition _wrap_text (text : string) (width : Z) : string :=
  PyStr.join nl (wrap_lines text width).

(** [self.fps] *)
Definition fps : Q := 25.

(** [int(total_duration * self.fps / frame_rate)] with [frame_rate = 3] *)
Definition total_frames (total_duration : Q) : Z :=
  py_int (total_duration * fps / 3).

(** [(frame_num * frame_rate) / self.fps] *)
Definition time_pos (frame_num : nat) : Q := of_nat frame_num * 3 / fps.

(** [scene['start_time'] <= time_pos < scene['start_time'] +
    scene['duration']] *)
Definition covers (t : Q) (scene : Scene) : bool :=
  Qle_bool (start_time scene) t
  && Qlt_bool t (start_time scene + duration scene).

(** The scene a frame is drawn from: the first that covers its time, the
    last scene when there is none; [None] is the [IndexError] of
    [scenes[-1]] on an empty list. *)
Definition current_scene (scenes : list Scene) (t : Q) : option Scene :=
  match List.find (covers t) scenes with
  | Some scene => Some scene
  | None => last scenes
  end.

(** The arguments of the successive calls to [_generate_single_frame] in
    [_generate_frames]: frame number, time and scene. *)
Definition frame_plan (scenes : list Scene) (total_duration : Q)
  : list (nat * Q * option Scene) :=
  map (fun frame_num =>
         (frame_num, time_pos frame_num,
          current_scene scenes (time_pos frame_num)))
      (seq 0 (Z.to_nat (total_frames total_duration))).

(** The frames [generate_video] plans for a script. *)
Definition generate_video_frames (script : string) (repo : RepoAnalysis)
  : list (nat * Q * option Scene) :=
  frame_plan (generate_video_scenes script repo) (estimate_duration script).

(** ** Quantities of the statements *)

(** A word as [str.split()] returns them: not empty, no whitespace. *)
Definition is_word (w : string) : Prop :=
  w <> EmptyString /\ PyStr.any_char PyStr.is_space w = false.

Definition scene_types : list string :=
  ["title"; "features"; "technology"; "code"; "conclusion"; "content"].

(** A line may stand: it is not empty, and it fits the width or is a
    single word of [words]. *)
Definition line_ok (width : Z) (words : list string) (line : string)
  : Prop :=
  line <> EmptyString
  /\ ((Z.of_nat (String.length line) <= width)%Z \/ line ∈ words).

(** What the loop of [_wrap_text] keeps true of its state. *)
Definition wrap_inv (width : Z) (words : list string)
    (st : list string * list string * Z) : Prop :=
  let '(lines, current_line, current_length) := st in
  Forall (line_ok width words) lines
  /\ (0 <= current_length)%Z
  /\ (current_line <> [] ->
      PyStr.join " " current_line <> EmptyString
      /\ (Z.of_nat (String.length (PyStr.join " " current_line))
          <= current_length)%Z
      /\ ((current_length <= width)%Z
          \/ exists w, current_line = [w] /\ w ∈ words)).

(** The words a state of the loop of [_wrap_text] holds: those of the
    finished lines, then the current line. *)
Definition held (st : list string * list string * Z) : list string :=
  (concat (map PyStr.split_ws st.1.1) ++ st.1.2)%list.

End VideoFrames.

(* ===================================================================== *)
(** * Properties of the text cleaning                                     *)
(* ===================================================================== *)

Module AudioCleanFacts.
Import PyStr.

Lemma no_ws_pair_cons a s :
  no_ws_pair (String a s)
  = negb (is_space a && head_space s) && no_ws_pair s.
Proof. destruct s; simpl; [ now rewrite andb_false_r | reflexivity ]. Qed.

Lemma newline_is_space : is_space newline = true.
Proof. reflexivity. Qed.

Lemma eqb_newline_space c :
  Ascii.eqb c newline = true -> is_space c = true.
Proof. intros H. apply Ascii.eqb_eq in H. now subst. Qed.

Lemma collapse_space_shape s : forall inside,
  no_ws_pair (collapse_from is_space inside s) = true
  /\ (inside = true ->
      head_space (collapse_from is_space inside s) = false)
  /\ has_newline (collapse_from is_space inside s) = false.
Proof.
  induction s as [|c s IH]; intros inside; simpl.
  - repeat split; reflexivity.
  - destruct (is_space c) eqn:Hc.
    + destruct inside.
      * destruct (IH true) as (H1 & H2 & H3). repeat split; auto.
      * destruct (IH true) as (H1 & H2 & H3).
        rewrite no_ws_pair_cons, H1, (H2 eq_refl), andb_false_r.
        repeat split; [ discriminate | exact H3 ].
    + destruct (IH false) as (H1 & H2 & H3).
      rewrite no_ws_pair_cons, H1, Hc. simpl.
      repeat split; auto.
      unfold has_newline in *. simpl. rewrite H3, orb_false_r.
      destruct (Ascii.eqb c newline) eqn:E; [ | reflexivity ].
      apply eqb_newline_space in E. congruence.
Qed.

Lemma no_ws_pair_tail a s : no_ws_pair (String a s) = true ->
  no_ws_pair s = true.
Proof.
  rewrite no_ws_pair_cons. intros H.
  apply andb_true_iff in H. tauto.
Qed.

Lemma has_newline_cons a s :
  has_newline (String a s) = Ascii.eqb a newline || has_newline s.
Proof. reflexivity. Qed.

Lemma lstrip_keeps s :
  no_ws_pair s = true -> has_newline s = false ->
  no_ws_pair (lstrip s) = true /\ has_newline (lstrip s) = false.
Proof.
  induction s as [|c s IH]; intros Hp Hn; [ auto | ].
  simpl lstrip. destruct (is_space c); [ | auto ].
  apply IH; [ eapply no_ws_pair_tail; eauto | ].
  rewrite has_newline_cons in Hn. apply orb_false_iff in Hn. tauto.
Qed.

Lemma rstrip_head s : head_space (rstrip s) = true -> head_space s = true.
Proof.
  destruct s as [|c s]; simpl; [ auto | ].
  destruct (is_space c && is_empty (rstrip s)); simpl; [ discriminate | auto ].
Qed.

Lemma rstrip_keeps s :
  no_ws_pair s = true -> has_newline s = false ->
  no_ws_pair (rstrip s) = true /\ has_newline (rstrip s) = false.
Proof.
  induction s as [|c s IH]; intros Hp Hn; [ auto | ].
  rewrite no_ws_pair_cons in Hp. apply andb_true_iff in Hp as [Hh Hp].
  rewrite has_newline_cons in Hn. apply orb_false_iff in Hn as [Hc Hn].
  destruct (IH Hp Hn) as [IH1 IH2]. simpl.
  destruct (is_space c && is_empty (rstrip s)); [ auto | ].
  rewrite no_ws_pair_cons, has_newline_cons, IH1, IH2, Hc.
  split; [ | reflexivity ].
  rewrite andb_true_r.
  destruct (head_space (rstrip s)) eqn:E; [ | now rewrite andb_false_r ].
  apply rstrip_head in E. now rewrite E in Hh.
Qed.

Lemma append_period_keeps s :
  no_ws_pair s = true -> has_newline s = false ->
  no_ws_pair (s ++ ".") = true /\ has_newline (s ++ ".") = false.
Proof.
  induction s as [|c s IH]; intros Hp Hn; [ auto | ].
  rewrite no_ws_pair_cons in Hp. apply andb_true_iff in Hp as [Hh Hp].
  rewrite has_newline_cons in Hn. apply orb_false_iff in Hn as [Hc Hn].
  destruct (IH Hp Hn) as [IH1 IH2].
  change (String c s ++ ".") with (String c (s ++ ".")).
  rewrite no_ws_pair_cons, has_newline_cons, IH1, IH2, Hc.
  split; [ | reflexivity ]. rewrite andb_true_r.
  destruct s; simpl in *; [ now rewrite andb_false_r | exact Hh ].
Qed.

Lemma endswith_append_period s : endswith "." (s ++ ".") = true.
Proof.
  induction s as [|c s IH]; [ reflexivity | ].
  change (String c s ++ ".") with (String c (s ++ ".")).
  simpl endswith. simpl in IH. rewrite IH. apply orb_true_r.
Qed.



End AudioCleanFacts.

(* ===================================================================== *)
(** * Properties of the speech synthesis                                  *)
(* ===================================================================== *)

(** Unfold the monad down to functions on states. *)
Ltac unfold_monad :=
  unfold Py.try_except, Py.try_except_only, mbind, Py.M_bind, Py.bind,
    mret, Py.M_ret, Py.ret, Py.raise, Py.emit, Py.ask, Py.modify in *.

Module AudioFacts.
Import Py Audio.

Section Generator.
Context {W : Type} (os : OS W) (self : AudioGenerator).

Lemma generate_audio_dispatch text session_id :
  generate_audio os self text session_id
  = try_except
      (call_engine os (selected_method self) (_clean_text_for_tts text)
                   (audio_path self session_id))
      (fun _ => _generate_fallback_audio os self
                  (_clean_text_for_tts text) session_id).
Proof.
  unfold generate_audio, selected_method, audio_path. f_equal.
  simpl existsb.
  repeat match goal with
  | |- context [String.eqb ?a ?b] =>
      let E := fresh "E" in
      destruct (String.eqb a b) eqn:E;
      [ apply String.eqb_eq in E; rewrite E; reflexivity | ]
  end.
  reflexivity.
Qed.

(** The fallback, run step by step. *)
Lemma fallback_run text session_id (s : traced W event) :
  _generate_fallback_audio os self text session_id s
  = let cmd := silence_cmd os self text session_id in
    let out := silent_path self session_id in
    let t1 := (trace s ++ [Subprocess cmd])%list in
    match subprocess_run_check os cmd (world s) with
    | (w1, Ok _) => (mk_traced w1 t1, Ok out)
    | (w1, Raise e) =>
        if existsb (exn_class_eqb (exn_cls e))
                   [CalledProcessError; FileNotFoundError]
        then
          let frames := py_int (silence_duration text * 44100) in
          let t2 := (t1 ++ [WaveWrite out frames])%list in
          match wave_write os out frames w1 with
          | (w2, Ok _) => (mk_traced w2 t2, Ok out)
          | (w2, Raise _) => (mk_traced w2 t2, Raise could_not_generate)
          end
        else (mk_traced w1 t1, Raise could_not_generate)
    end.
Proof.
  unfold _generate_fallback_audio, run_check, write_silence.
  unfold_monad. cbn [world trace].
  fold (silent_path self session_id).
  fold (silence_cmd os self text session_id).
  destruct (subprocess_run_check os _ (world s)) as [w1 [[]|e]];
    [ reflexivity | ].
  cbn [world trace].
  destruct (existsb _ _); [ | reflexivity ].
  cbn [world trace].
  destruct (wave_write os _ _ w1) as [w2 [[]|e2]]; reflexivity.
Qed.

Lemma generate_audio_run text session_id (s : traced W event) :
  generate_audio os self text session_id s
  = let text' := _clean_text_for_tts text in
    let call := TTS (selected_method self) text'
                    (audio_path self session_id) in
    match tts_call os (selected_method self) text'
                   (audio_path self session_id) (world s) with
    | (w1, Ok p) => (mk_traced w1 (trace s ++ [call]), Ok p)
    | (w1, Raise _) =>
        _generate_fallback_audio os self text' session_id
          (mk_traced w1 (trace s ++ [call]))
    end.
Proof.
  rewrite generate_audio_dispatch. unfold call_engine.
  unfold_monad. cbn [world trace].
  destruct (tts_call os _ _ _ (world s)) as [w1 [p|e]]; reflexivity.
Qed.

(** The module-level function adds nothing: it re-raises what
    [generate_audio] raises. *)
Lemma generate_audio_from_text_same text session_id (s : traced W event) :
  generate_audio_from_text os self text session_id s
  = generate_audio os self text session_id s.
Proof.
  unfold generate_audio_from_text. unfold_monad.
  destruct (generate_audio os self text session_id s) as [s' [p|e]];
    reflexivity.
Qed.


End Generator.


(** With neither an engine nor [ffmpeg] the silent file is written by
    the [wave] module, after the failed [ffmpeg] attempt. *)
Example bare_machine_writes_silence :
  generate_audio os_bare linux_generator "Hello world" "s1"
                 (mk_traced tt [])
  = (mk_traced tt
       [TTS "espeak" "Hello world." "/tmp/repo2reel_s1_audio.wav";
        Subprocess (silence_cmd os_bare linux_generator "Hello world." "s1");
        WaveWrite "/tmp/repo2reel_s1_audio_silent.wav" 44100],
     Ok "/tmp/repo2reel_s1_audio_silent.wav").
Proof. reflexivity. Qed.

End AudioFacts.

(* ===================================================================== *)
(** * Properties of the script segmenter                                  *)
(* ===================================================================== *)

Module VideoFacts.
Import Py Video.

Local Open Scope Q_scope.

Lemma of_nat_succ n : of_nat (S n) == 1 + of_nat n.
Proof.
  unfold of_nat. rewrite Nat2Z.inj_succ. unfold Z.succ.
  rewrite inject_Z_plus. ring.
Qed.

Lemma of_nat_nonzero n : n <> 0%nat -> ~ of_nat n == 0.
Proof.
  intros Hn H. unfold of_nat, Qeq in H. simpl in H. lia.
Qed.

(** Scenes of one common duration add up to their number times it. *)
Lemma total_duration_uniform sd (l : list Scene) :
  Forall (fun sc => duration sc == sd) l ->
  total_duration l == of_nat (length l) * sd.
Proof.
  induction 1 as [|sc l Hsc _ IH]; simpl.
  - unfold of_nat. simpl. ring.
  - rewrite of_nat_succ, IH, Hsc. ring.
Qed.

(** The estimate of [generate_video] is the clamp of the specification. *)
Lemma estimate_duration_clamp script :
  estimate_duration script
  = clamp (of_nat (length (PyStr.split_ws script)) * (2 # 5)) 30 300.
Proof.
  unfold estimate_duration, clamp, py_min, py_max.
  destruct (Qlt_bool _ 30) eqn:E; [ reflexivity | ].
  reflexivity.
Qed.

Section Scenes.
Variables (script : string) (repo : RepoAnalysis) (d : Q).

(** [_create_scenes] answers one scene per section, or the default
    scene when the division by the number of sections raises. *)
Lemma create_scenes_length :
  length (_create_scenes script repo d)
  = Nat.max 1 (length (_split_script_into_sections script)).
Proof.
  unfold _create_scenes, create_scenes_body.
  destruct (_split_script_into_sections script) as [|x l];
    [ reflexivity | ].
  rewrite length_imap. reflexivity.
Qed.

Lemma create_scenes_lookup i sc :
  _create_scenes script repo d !! i = Some sc ->
  duration sc == d / of_nat (length (_create_scenes script repo d))
  /\ start_time sc
     == of_nat i * (d / of_nat (length (_create_scenes script repo d))).
Proof.
  rewrite create_scenes_length.
  unfold _create_scenes, create_scenes_body.
  destruct (_split_script_into_sections script) as [|x l] eqn:E.
  - destruct i as [|i]; simpl; [ | discriminate ].
    intros [= <-]. simpl. unfold of_nat. simpl. split; field.
  - rewrite list_lookup_imap.
    destruct ((x :: l) !! i) as [section|]; simpl; [ | discriminate ].
    intros [= <-]. simpl. split; reflexivity.
Qed.

End Scenes.


(** ** The paragraph rule *)

(** What the paragraph rule returns are stripped, non-empty paragraphs. *)
Lemma paragraph_sections_nonempty script sections :
  sections_by_paragraphs script = Some sections ->
  Forall (fun p => PyStr.truthy p = true
                   /\ exists q, q ∈ PyStr.split (nl ++ nl)%string script
                                /\ p = PyStr.strip q) sections.
Proof.
  unfold sections_by_paragraphs.
  destruct (1 <? _)%nat; [ | discriminate ].
  intros [= <-]. apply Forall_forall. intros p Hp.
  apply list_elem_of_fmap in Hp as (q & -> & Hq).
  apply list_elem_of_filter in Hq as [Hq1 Hq2].
  split; [ exact Hq1 | exists q; auto ].
Qed.

(** C8, failing input: a script of one paragraph followed by a blank
    line has no timing marker, splits into the paragraphs ["a"] and [""],
    passes the test [len(paragraphs) > 1], which counts before the empty
    paragraphs are dropped, and so the paragraph rule returns the single
    section ["a"]; for a script that is a blank line alone it returns no
    section at all. *)
Theorem C8_paragraph_rule_counts_empty_paragraphs :
  sections_by_markers ("a" ++ nl ++ nl)%string = None
  /\ sections_by_paragraphs ("a" ++ nl ++ nl)%string = Some ["a"%string]
  /\ _split_script_into_sections ("a" ++ nl ++ nl)%string = ["a"%string]
  /\ _split_script_into_sections (nl ++ nl)%string = [].
Proof. repeat split; reflexivity. Qed.

End VideoFacts.

(* ===================================================================== *)
(** * Properties of the merger                                            *)
(* ===================================================================== *)

Module MergeFacts.
Import Py Merge.

(** ** Handlers that return *)

Lemma try_except_returns {S A} (m : M S A) (a : A) (s : S) :
  exists s' x, try_except m (fun _ => mret a) s = (s', Ok x).
Proof.
  unfold_monad. destruct (m s) as [s' [x|e]]; eauto.
Qed.

Lemma try_except_ok {S A} (m : M S A) (h : exn -> M S A) s s' x :
  m s = (s', Ok x) -> try_except m h s = (s', Ok x).
Proof. unfold_monad. now intros ->. Qed.

Section Merger.
Context {W : Type} (os : OS W).

Abbreviation state := (traced W event).

Lemma get_video_duration_returns video_file (s : state) :
  exists s' d, _get_video_duration os video_file s = (s', Ok d).
Proof. apply try_except_returns. Qed.

Lemma get_audio_duration_returns audio_file (s : state) :
  exists s' d, _get_audio_duration os audio_file s = (s', Ok d).
Proof. apply try_except_returns. Qed.

Lemma simple_merge_returns v a o (s : state) :
  exists s' b, _simple_merge os v a o s = (s', Ok b).
Proof. apply try_except_returns. Qed.

Lemma audio_loop_returns v a o t (s : state) :
  exists s' b, _merge_with_audio_loop os v a o t s = (s', Ok b).
Proof. apply try_except_returns. Qed.

Lemma speed_adjust_returns v a o t (s : state) :
  exists s' b, _merge_with_video_speed_adjust os v a o t s = (s', Ok b).
Proof. apply try_except_returns. Qed.

(** ** Which commands run *)

Lemma run_spec cmd t (s : state) :
  run os cmd t s
  = let (w', r) := subprocess_run os cmd t (world s) in
    (mk_traced w' (trace s ++ [Subprocess cmd t]), r).
Proof. unfold run. unfold_monad. reflexivity. Qed.

Lemma simple_merge_spec v a o (s : state) :
  _simple_merge os v a o s
  = let (w', r) :=
      subprocess_run os (simple_merge_cmd v a o) 300 (world s) in
    (mk_traced w' (trace s ++ [Subprocess (simple_merge_cmd v a o) 300]),
     Ok match r with
        | Ok result => (returncode result =? 0)%Z
        | Raise _ => false
        end).
Proof.
  unfold _simple_merge. unfold_monad. rewrite run_spec.
  destruct (subprocess_run os _ 300 (world s)) as [w' [res|e]];
    [ | reflexivity ].
  destruct (returncode res =? 0)%Z; reflexivity.
Qed.

(** The branch [_merge_with_ffmpeg] takes once both probes have
    answered. *)
Lemma merge_with_ffmpeg_dispatch v a o (s s1 s2 : state) dv da :
  _get_video_duration os v s = (s1, Ok dv) ->
  _get_audio_duration os a s1 = (s2, Ok da) ->
  _merge_with_ffmpeg os v a o s
  = match dv, da with
    | Some Dv, Some Da =>
        if Qlt_bool (Qabs (Dv - Da)) 3 then _simple_merge os v a o s2
        else if Qlt_bool Da Dv then _merge_with_audio_loop os v a o Dv s2
        else _merge_with_video_speed_adjust os v a o Da s2
    | _, _ => _simple_merge os v a o s2
    end.
Proof.
  intros Hv Ha. unfold _merge_with_ffmpeg. unfold_monad.
  rewrite Hv, Ha.
  destruct dv as [Dv|], da as [Da|];
    repeat match goal with
    | |- context [if ?b then _ else _] => destruct b
    end;
    first
      [ destruct (simple_merge_returns v a o s2) as (? & ? & ->)
      | destruct (audio_loop_returns v a o Dv s2) as (? & ? & ->)
      | destruct (speed_adjust_returns v a o Da s2) as (? & ? & ->) ];
    reflexivity.
Qed.

End Merger.

(** ** Comparisons of durations *)

Lemma Qlt_bool_iff a b : Qlt_bool a b = true <-> (a < b)%Q.
Proof.
  unfold Qlt_bool. rewrite negb_true_iff.
  split.
  - intros H. apply Qnot_le_lt. intros Hle.
    apply Qle_bool_iff in Hle. congruence.
  - intros H. destruct (Qle_bool b a) eqn:E; [ | reflexivity ].
    apply Qle_bool_iff in E. lra.
Qed.

Lemma Qlt_bool_false a b : Qlt_bool a b = false <-> (b <= a)%Q.
Proof.
  unfold Qlt_bool. rewrite negb_false_iff. apply Qle_bool_iff.
Qed.

(** The three conditions of the specification exclude one another. *)
Lemma strategy_condition_unique st st' Dv Da :
  strategy_condition st Dv Da -> strategy_condition st' Dv Da -> st' = st.
Proof.
  destruct st, st'; unfold strategy_condition; intros H H';
    try reflexivity; exfalso;
    revert H H'; apply Qabs_case; intros; lra.
Qed.

(** ** Missing inputs *)

(** C1, counterexample: with no video file at the given path the
    operation does not fail; the [FileNotFoundError] it raises is caught
    by its own handler and the path of the missing video is returned. *)
Lemma C1_missing_video_is_returned :
  os_path_exists os_demo "/tmp/none.mp4" tt = false
  /\ merge_audio_video os_demo demo_merger "/tmp/none.mp4" "/tmp/audio.wav"
                       "s1" (mk_traced tt [])
     = (mk_traced tt [], Ok "/tmp/none.mp4")
  /\ ~ fails_when_video_missing os_demo demo_merger "/tmp/none.mp4"
                                "/tmp/audio.wav" "s1" (mk_traced tt []).
Proof.
  split; [ reflexivity | split; [ reflexivity | ] ].
  intros H. destruct (H eq_refl) as [e He]. discriminate.
Qed.

(** C1, amended: the merge operation never raises; when the video path
    does not exist, and when the video exists but the audio path does
    not, it runs no command and returns the video path unchanged.  The
    same holds of the module-level function the controller calls. *)
Theorem C1_missing_inputs_return_video {W} (os : OS W)
    (self : AudioVideoMerger) (v a sid : string) (s : traced W event) :
  (exists s' p, merge_audio_video os self v a sid s = (s', Ok p))
  /\ (exists s' p, merge_audio_video_main os self v a sid s = (s', Ok p))
  /\ (os_path_exists os v (world s) = false ->
      merge_audio_video os self v a sid s = (s, Ok v)
      /\ merge_audio_video_main os self v a sid s = (s, Ok v))
  /\ (os_path_exists os v (world s) = true ->
      os_path_exists os a (world s) = false ->
      merge_audio_video os self v a sid s = (s, Ok v)
      /\ merge_audio_video_main os self v a sid s = (s, Ok v)).
Proof.
  split; [ apply try_except_returns | ].
  split; [ apply try_except_returns | ].
  split.
  - intros Hv.
    assert (H : merge_audio_video os self v a sid s = (s, Ok v)).
    { unfold merge_audio_video, path_exists. unfold_monad.
      rewrite Hv. reflexivity. }
    split; [ exact H | ].
    unfold merge_audio_video_main. now apply try_except_ok.
  - intros Hv Ha.
    assert (H : merge_audio_video os self v a sid s = (s, Ok v)).
    { unfold merge_audio_video, path_exists. unfold_monad.
      rewrite Hv. simpl. rewrite Ha. reflexivity. }
    split; [ exact H | ].
    unfold merge_audio_video_main. now apply try_except_ok.
Qed.

(** ** Strategy selection *)


(** The audio loop starts with the looping command, cut at the target
    duration. *)
Lemma audio_loop_first_command {W} (os : OS W) v a o (target : Q)
    (s : traced W event) :
  exists rest,
    trace (_merge_with_audio_loop os v a o target s).1
    = (trace s ++ Subprocess (audio_loop_cmd os v a o target) 300 :: rest)%list
    /\ In "-stream_loop" (audio_loop_cmd os v a o target)
    /\ In (format_float os target) (audio_loop_cmd os v a o target).
Proof.
  unfold _merge_with_audio_loop. unfold_monad. rewrite run_spec.
  destruct (subprocess_run os _ 300 (world s)) as [w' [res|e]].
  - destruct (returncode res =? 0)%Z.
    + exists []. cbn. intuition.
    + rewrite simple_merge_spec. cbn [world trace].
      destruct (subprocess_run os (simple_merge_cmd v a o) 300 w').
      eexists [_]. cbn [fst trace]. rewrite <- app_assoc. cbn. intuition.
  - exists []. cbn. intuition.
Qed.

(** The four reconciliations the specification lists, on the laboratory
    machine: the commands run, in order. *)
Example reconcile_10_and_10_5 :
  trace (_merge_with_ffmpeg (os_lab "10.0" "10.5") "/tmp/video.mp4"
           "/tmp/audio.wav" "/tmp/out.mp4" (mk_traced tt [])).1
  = [Subprocess (probe_cmd "/tmp/video.mp4") 30;
     Subprocess (probe_cmd "/tmp/audio.wav") 30;
     Subprocess (simple_merge_cmd "/tmp/video.mp4" "/tmp/audio.wav"
                                  "/tmp/out.mp4") 300].
Proof. vm_compute. reflexivity. Qed.

Example reconcile_40_and_8 :
  trace (_merge_with_ffmpeg (os_lab "40.0" "8.0") "/tmp/video.mp4"
           "/tmp/audio.wav" "/tmp/out.mp4" (mk_traced tt [])).1
  = [Subprocess (probe_cmd "/tmp/video.mp4") 30;
     Subprocess (probe_cmd "/tmp/audio.wav") 30;
     Subprocess (audio_loop_cmd (os_lab "40.0" "8.0") "/tmp/video.mp4"
                   "/tmp/audio.wav" "/tmp/out.mp4" 40) 300].
Proof. vm_compute. reflexivity. Qed.

Example reconcile_8_and_40 :
  trace (_merge_with_ffmpeg (os_lab "8.0" "40.0") "/tmp/video.mp4"
           "/tmp/audio.wav" "/tmp/out.mp4" (mk_traced tt [])).1
  = [Subprocess (probe_cmd "/tmp/video.mp4") 30;
     Subprocess (probe_cmd "/tmp/audio.wav") 30;
     Subprocess (probe_cmd "/tmp/video.mp4") 30;
     Subprocess (simple_merge_cmd "/tmp/video.mp4" "/tmp/audio.wav"
                                  "/tmp/out.mp4") 300].
Proof. vm_compute. reflexivity. Qed.

Example reconcile_8_and_12 :
  trace (_merge_with_ffmpeg (os_lab "8.0" "12.0") "/tmp/video.mp4"
           "/tmp/audio.wav" "/tmp/out.mp4" (mk_traced tt [])).1
  = [Subprocess (probe_cmd "/tmp/video.mp4") 30;
     Subprocess (probe_cmd "/tmp/audio.wav") 30;
     Subprocess (probe_cmd "/tmp/video.mp4") 30;
     Subprocess (speed_adjust_cmd (os_lab "8.0" "12.0") "/tmp/video.mp4"
                   "/tmp/audio.wav" "/tmp/out.mp4" (8 / 12)) 300].
Proof. vm_compute. reflexivity. Qed.

(** A whole merge on the demonstration machine. *)
Example merge_on_demo_machine :
  (merge_audio_video_main os_demo demo_merger "/tmp/video.mp4"
                          "/tmp/audio.wav" "s1" (mk_traced tt [])).2
  = Ok "/tmp/repo2reel_s1_final.mp4".
Proof. vm_compute. reflexivity. Qed.

(** ** The video time-scale *)

Section TimeScale.
Context {W : Type} (os : OS W).

(** [_merge_with_video_speed_adjust] once its own probe of the video
    has answered [Dv] and the target duration is not zero. *)
Lemma speed_adjust_spec v a o (s2 s3 : traced W event) Dv Da :
  _get_video_duration os v s2 = (s3, Ok (Some Dv)) ->
  ~ (Da == 0)%Q ->
  _merge_with_video_speed_adjust os v a o Da s2
  = if Qlt_bool (Dv / Da) (1 # 2) || Qlt_bool 2 (Dv / Da)
    then _simple_merge os v a o s3
    else
      let cmd := speed_adjust_cmd os v a o (Dv / Da) in
      let (w4, r) := subprocess_run os cmd 300 (world s3) in
      let s4 := mk_traced w4 (trace s3 ++ [Subprocess cmd 300]) in
      match r with
      | Ok result =>
          if (returncode result =? 0)%Z then (s4, Ok true)
          else _simple_merge os v a o s4
      | Raise _ => (s4, Ok false)
      end.
Proof.
  intros Hv HDa. unfold _merge_with_video_speed_adjust, float_div.
  assert (E : Qeq_bool Da 0 = false).
  { destruct (Qeq_bool Da 0) eqn:E; [ | reflexivity ].
    apply Qeq_bool_iff in E. contradiction. }
  rewrite E. unfold_monad. rewrite Hv.
  destruct (Qlt_bool (Dv / Da) (1 # 2) || Qlt_bool 2 (Dv / Da)).
  - destruct (simple_merge_returns os v a o s3) as (? & ? & ->).
    reflexivity.
  - rewrite run_spec. cbv zeta.
    destruct (subprocess_run os _ 300 (world s3)) as [w4 [res|e]];
      [ | reflexivity ].
    destruct (returncode res =? 0)%Z; [ reflexivity | ].
    destruct (simple_merge_returns os v a o
                (mk_traced w4
                   (trace s3
                    ++ [Subprocess (speed_adjust_cmd os v a o (Dv / Da))
                                   300])))
      as (? & ? & ->).
    reflexivity.
Qed.

Lemma speed_cmd_not_simple v a o x :
  Subprocess (speed_adjust_cmd os v a o x) 300
  <> Subprocess (simple_merge_cmd v a o) 300.
Proof. unfold speed_adjust_cmd, simple_merge_cmd. intros [=]. Qed.


End TimeScale.


End MergeFacts.

(* ===================================================================== *)
(** * Properties of the text generation                                   *)
(* ===================================================================== *)

Module LLMFacts.
Import Py LLM.

Section Processor.
Context {W : Type} (os : OS W).

Lemma call_provider_spec method prompt max_length (s : traced W event) :
  call_provider os method prompt max_length s
  = let (w', r) := provider_call os method prompt max_length (world s) in
    (mk_traced w' (trace s ++ [Provider method prompt max_length]), r).
Proof. unfold call_provider. unfold_monad. reflexivity. Qed.

(** The local generation always returns: the text of [transformers]
    when the pipeline works, the template otherwise. *)
Lemma generate_with_local_spec prompt max_length (s : traced W event) :
  _generate_with_local os prompt max_length s
  = let (w', r) := transformers_pipeline os prompt max_length (world s) in
    (mk_traced w' (trace s ++ [Transformers prompt max_length]),
     Ok match r with
        | Ok generated => generated
        | Raise _ => template_text os prompt
        end).
Proof.
  unfold _generate_with_local. unfold_monad. cbn [world trace].
  destruct (transformers_pipeline os prompt max_length (world s))
    as [w' [t|e]]; [ reflexivity | ].
  destruct (existsb _ _); reflexivity.
Qed.

(** [generate_text] tries the first configured provider and nothing
    else before the local generation. *)
Lemma generate_text_first_only environ prompt max_length
    (s : traced W event) :
  generate_text os (init environ) prompt max_length s
  = cascade os (take 1 (configured environ)) prompt max_length s.
Proof.
  unfold init, configured, _determine_service, generate_text.
  cbn [service].
  destruct (key_set (environ !! "GROQ_API_KEY")); [ reflexivity | ].
  destruct (key_set (environ !! "OPENAI_API_KEY")); [ reflexivity | ].
  destruct (key_set (environ !! "ANTHROPIC_API_KEY")); [ reflexivity | ].
  destruct (key_set (environ !! "TOGETHER_API_KEY")); [ reflexivity | ].
  destruct (key_set (environ !! "HUGGINGFACE_API_KEY"));
    [ reflexivity | ].
  cbn. unfold_monad. rewrite generate_with_local_spec.
  destruct (transformers_pipeline os prompt max_length (world s));
    reflexivity.
Qed.

Lemma providers_called_app (t u : list event) :
  providers_called (t ++ u)
  = (providers_called t ++ providers_called u)%list.
Proof. apply omap_app. Qed.

(** C2, amended: [generate_text] is the cascade over the first
    configured provider alone.  When that provider succeeds its result
    is returned and nothing else is called; when it fails the local
    generation answers at once; in both cases no later provider is
    ever invoked. *)
Theorem C2_first_provider_then_local environ prompt max_length
    (s : traced W event) :
  let run := generate_text os (init environ) prompt max_length s in
  run = cascade os (take 1 (configured environ)) prompt max_length s
  /\ providers_called (trace run.1)
     = (providers_called (trace s) ++ take 1 (configured environ))%list
  /\ (exists text, run.2 = Ok text)
  /\ (forall p w1 text,
        head (configured environ) = Some p ->
        provider_call os p prompt max_length (world s) = (w1, Ok text) ->
        run = (mk_traced w1 (trace s ++ [Provider p prompt max_length]),
               Ok text))
  /\ (forall p w1 e,
        head (configured environ) = Some p ->
        provider_call os p prompt max_length (world s) = (w1, Raise e) ->
        run = _generate_with_local os prompt max_length
                (mk_traced w1
                   (trace s ++ [Provider p prompt max_length]))).
Proof.
  intros run. subst run. rewrite generate_text_first_only.
  split; [ reflexivity | ].
  destruct (configured environ) as [|p rest]; cbn [take cascade head];
    rewrite ?take_0; cbn [cascade].
  - rewrite generate_with_local_spec.
    destruct (transformers_pipeline os prompt max_length (world s))
      as [w' r].
    cbn [fst snd trace]. rewrite providers_called_app. cbn.
    split; [ reflexivity | ].
    split; [ eauto | ].
    split; intros ? ? ? [=].
  - unfold_monad. rewrite call_provider_spec.
    destruct (provider_call os p prompt max_length (world s))
      as [w1 [text|e]] eqn:Hp.
    + split; [ | split; [ eauto | ] ].
      * cbn [fst trace]. rewrite providers_called_app. reflexivity.
      * split; intros ? ? ? [= <-] Hp'; rewrite Hp in Hp';
          inversion Hp'; subst; reflexivity.
    + split; [ | split ].
      * rewrite generate_with_local_spec. cbn [world trace].
        destruct (transformers_pipeline os prompt max_length w1).
        cbn [fst trace]. rewrite !providers_called_app. cbn.
        now rewrite app_nil_r.
      * rewrite generate_with_local_spec.
        destruct (transformers_pipeline os prompt max_length _).
        eauto.
      * split; intros ? ? ? [= <-] Hp'; rewrite Hp in Hp';
          inversion Hp'; subst; reflexivity.
Qed.

End Processor.

(** C2, counterexample: with two credentials set, the first provider
    failing and the second able to answer, the cascade of the
    specification returns the second provider's text, while
    [generate_text] never calls the second provider and returns the
    local template. *)
Lemma C2_second_provider_is_skipped :
  configured two_keys = ["groq"; "openai"]
  /\ cascade os_groq_down (configured two_keys) "prompt" 800
             (mk_traced tt [])
     = (mk_traced tt [Provider "groq" "prompt" 800;
                      Provider "openai" "prompt" 800],
        Ok "Narration from the second provider.")
  /\ generate_text os_groq_down (init two_keys) "prompt" 800
                   (mk_traced tt [])
     = (mk_traced tt [Provider "groq" "prompt" 800;
                      Transformers "prompt" 800],
        Ok "Narration from the local template.")
  /\ generate_text os_groq_down (init two_keys) "prompt" 800
                   (mk_traced tt [])
     <> cascade os_groq_down (configured two_keys) "prompt" 800
                (mk_traced tt []).
Proof.
  assert (H1 : configured two_keys = ["groq"; "openai"])
    by (vm_compute; reflexivity).
  split; [ exact H1 | ].
  split; [ rewrite H1; reflexivity | ].
  assert (H3 : generate_text os_groq_down (init two_keys) "prompt" 800
                 (mk_traced tt [])
               = (mk_traced tt [Provider "groq" "prompt" 800;
                                Transformers "prompt" 800],
                  Ok "Narration from the local template."))
    by (vm_compute; reflexivity).
  split; [ exact H3 | ].
  rewrite H3, H1. cbn. discriminate.
Qed.

End LLMFacts.

(* ===================================================================== *)
(** * Properties of the job pipeline                                      *)
(* ===================================================================== *)

Module AppFacts.
Import Py App.

Local Open Scope list_scope.

Lemma observed_app sid (h1 h2 : list registry) :
  observed sid (h1 ++ h2) = (observed sid h1 ++ observed sid h2)%list.
Proof. apply omap_app. Qed.

Lemma observed_one sid (reg : registry) e :
  reg !! sid = Some e -> observed sid [reg] = [(status e, progress e)].
Proof.
  intros H. unfold observed, get_status. cbn. now rewrite H.
Qed.

Section Worker.
Context {W Analysis : Type} (stages : Stages W Analysis).
Variables (sid : string) (s0 : state W).

Lemma shown_start entry :
  processing_status s0 !! sid = Some entry -> shown sid s0 s0 [] entry.
Proof.
  intros H. exists []. rewrite app_nil_r. repeat split; auto.
Qed.

(** An update of a session that exists succeeds and shows one more
    observation. *)
Lemma step_update (f : Session -> Session) s seen e :
  shown sid s0 s seen e ->
  exists s',
    update sid f s = (s', Ok tt)
    /\ shown sid s0 s' (seen ++ [(status (f e), progress (f e))]) (f e).
Proof.
  intros (new & Hs & Hl & Ho & He).
  unfold update. rewrite He. eexists. split; [ reflexivity | ].
  exists (new ++ [<[sid := f e]> (processing_status s)]).
  cbn [set_registry snapshots processing_status].
  rewrite Hs, app_assoc, observed_app, Ho.
  rewrite (observed_one sid _ (f e)) by apply lookup_insert_eq.
  repeat split; auto; [ | apply lookup_insert_eq ].
  apply Forall_app. split; [ exact Hl | ].
  apply Forall_singleton. rewrite lookup_insert_eq. eauto.
Qed.

(** A stage leaves the registry alone. *)
Lemma step_call {A} (f : W -> W * result A) s s' r seen e :
  shown sid s0 s seen e -> call f s = (s', r) -> shown sid s0 s' seen e.
Proof.
  intros (new & Hs & Hl & Ho & He). unfold call.
  destruct (f (world s)) as [w' r']. intros [= <- <-].
  exists new. cbn. auto.
Qed.

(** Run the update at the head of the goal. *)
Ltac run_update :=
  match goal with
  | I : shown _ _ ?s _ _ |- context [update _ ?f ?s] =>
      let s' := fresh "s" in
      let E := fresh "E" in
      let I' := fresh "I" in
      destruct (step_update f s _ _ I) as (s' & E & I');
      rewrite E; clear E I
  end.

(** Run the stage at the head of the goal: it returns or raises. *)
Ltac run_stage :=
  match goal with
  | I : shown _ _ ?s _ _ |- context [call ?f ?s] =>
      let C := fresh "C" in
      destruct (call f s) as [? [?|?]] eqn:C;
      apply (step_call f s _ _ _ _ I) in C; clear I
  end.

(** The stage has raised after [n] checkpoints: the handler runs. *)
Ltac raised n :=
  run_update;
  match goal with
  | I : shown _ _ ?s _ ?e |- _ =>
      exists n, s, e;
      split; [ reflexivity | ];
      split; [ lia | ];
      split; [ exact I | ];
      cbn; repeat split; eauto; lia
  end.

(** The worker always returns; it has shown the first [n] checkpoints,
    all six when every stage returned and fewer, followed by the error
    entry, when a stage raised. *)
Lemma worker_outcome url entry :
  processing_status s0 !! sid = Some entry ->
  exists n s' e,
    process_repository_background stages url sid s0 = (s', Ok tt)
    /\ (1 <= n <= 6)%nat
    /\ shown sid s0 s' (outcome n) e
    /\ if (n =? 6)%nat
       then status e = "completed" /\ progress e = 100%Z
            /\ is_Some (result_file e) /\ error e = error entry
       else status e = "error" /\ (progress e < 100)%Z
            /\ is_Some (error e).
Proof.
  intros H. pose proof (shown_start entry H) as I.
  unfold process_repository_background. unfold_monad.
  run_update.
  run_stage; [ | raised 1%nat ].
  run_stage; [ | raised 1%nat ].
  run_update.
  run_stage; [ | raised 2%nat ].
  run_stage; [ | raised 2%nat ].
  run_update.
  run_stage; [ | raised 3%nat ].
  run_update.
  run_stage; [ | raised 4%nat ].
  run_update.
  run_stage; [ | raised 5%nat ].
  run_update.
  match goal with
  | I : shown _ _ ?s _ ?e |- _ =>
      exists 6%nat, s, e;
      split; [ reflexivity | ];
      split; [ lia | ];
      split; [ exact I | ];
      cbn; repeat split; eauto
  end.
Qed.

End Worker.

(** ** Status and checkpoints *)




(** ** Monotone progress *)

Lemma nondecreasing_head a (l : list Z) :
  nondecreasing (a :: l) = true ->
  forall j b, l !! j = Some b -> (a <= b)%Z.
Proof.
  revert a. induction l as [|b0 l IH]; intros a H j b Hj;
    [ now rewrite lookup_nil in Hj | ].
  cbn [nondecreasing] in H. apply andb_true_iff in H as [Hab H].
  apply Z.leb_le in Hab.
  destruct j as [|j]; cbn in Hj.
  - injection Hj as <-. exact Hab.
  - specialize (IH b0 H j b Hj). lia.
Qed.

Lemma nondecreasing_tail a (l : list Z) :
  nondecreasing (a :: l) = true -> nondecreasing l = true.
Proof.
  destruct l; [ reflexivity | ]. cbn [nondecreasing].
  intros H. apply andb_true_iff in H. tauto.
Qed.

Lemma nondecreasing_lookup (l : list Z) :
  nondecreasing l = true ->
  forall i j a b, (i <= j)%nat ->
    l !! i = Some a -> l !! j = Some b -> (a <= b)%Z.
Proof.
  induction l as [|x l IH]; intros H i j a b Hij Hi Hj;
    [ now rewrite lookup_nil in Hi | ].
  destruct i as [|i], j as [|j]; cbn in Hi, Hj; try lia.
  - injection Hi as <-. injection Hj as <-. lia.
  - injection Hi as <-. eapply nondecreasing_head; eauto.
  - eapply (IH (nondecreasing_tail _ _ H) i j); eauto. lia.
Qed.

(** C6: once a source reference is accepted, every status request for
    the session is answered; the progress values seen start at 0 and
    never decrease; and the last one is 100 under the status "completed",
    or a value below 100 under the status "error", the marker of a failed
    session, which keeps the progress reached before the failure. *)
Theorem C6_progress_never_decreases {W Analysis}
    (stages : Stages W Analysis) (form_url : option string)
    (uuid url sid : string) (s s0 : state W) :
  process_repository form_url uuid s = (s0, RedirectProcessing sid) ->
  exists new,
    snapshots (process_repository_background stages url sid s0).1
    = snapshots s ++ new
    /\ Forall (fun reg : registry =>
                 exists e, get_status sid reg = Json 200 (Some e)) new
    /\ head (observed sid new) = Some ("starting", 0%Z)
    /\ (forall i j p q, (i <= j)%nat ->
          observed sid new !! i = Some p ->
          observed sid new !! j = Some q -> (p.2 <= q.2)%Z)
    /\ (last (observed sid new) = Some ("completed", 100%Z)
        \/ exists p, last (observed sid new) = Some ("error", p)
                     /\ (p < 100)%Z).
Proof.
  unfold process_repository.
  destruct (validate _) as [flash|]; [ intros [=] | ].
  intros [= <- <-].
  set (first := {| status := "starting"; progress := 0;
                   message := "Initializing repository processing...";
                   error := None; result_file := None;
                   github_url := PyStr.strip (default "" form_url) |}).
  set (reg0 := <[uuid := first]> (processing_status s)).
  assert (H0 : processing_status (set_registry reg0 s) !! uuid = Some first)
    by apply lookup_insert_eq.
  destruct (worker_outcome stages uuid _ url first H0)
    as (n & s' & e & -> & Hn & (new & Hs & Hl & Ho & _) & _).
  exists (reg0 :: new). cbn [fst].
  split; [ rewrite Hs; cbn; now rewrite <- app_assoc | ].
  assert (Hseen : observed uuid (reg0 :: new)
                  = ("starting", 0%Z) :: outcome n).
  { change (reg0 :: new) with ([reg0] ++ new).
    rewrite observed_app, Ho.
    rewrite (observed_one uuid reg0 first) by apply lookup_insert_eq.
    reflexivity. }
  split.
  { apply Forall_cons. split.
    - unfold get_status, reg0. rewrite lookup_insert_eq. eauto.
    - eapply Forall_impl; [ exact Hl | ].
      intros reg [e' He']. unfold get_status. rewrite He'. eauto. }
  rewrite Hseen.
  assert (Hcases : (n = 1 \/ n = 2 \/ n = 3 \/ n = 4 \/ n = 5 \/ n = 6)%nat)
    by lia.
  split; [ reflexivity | ].
  split.
  - intros i j p q Hij Hi Hj.
    apply (nondecreasing_lookup (snd <$> (("starting", 0%Z) :: outcome n)))
      with (i := i) (j := j); auto.
    + destruct Hcases as [-> | [-> | [-> | [-> | [-> | ->]]]]]; reflexivity.
    + now rewrite list_lookup_fmap, Hi.
    + now rewrite list_lookup_fmap, Hj.
  - destruct Hcases as [-> | [-> | [-> | [-> | [-> | ->]]]]];
      first [ left; reflexivity
            | right; eexists; split; [ reflexivity | reflexivity ] ].
Qed.

(** C6 on the demonstration run, where the renderer raises: progress
    stops at 70 and the session is marked with the error. *)
Lemma C6_progress_never_decreases_witness :
  process_repository (Some demo_url) "id1" (mk_state tt ∅ [])
  = (submitted, RedirectProcessing "id1")
  /\ observed "id1"
       (snapshots
          (process_repository_background stages_render_fails demo_url
                                         "id1" submitted).1)
     = [("starting", 0%Z); ("analyzing", 10%Z); ("analyzing", 30%Z);
        ("analyzing", 50%Z); ("analyzing", 70%Z); ("error", 70%Z)]
  /\ exists new,
       snapshots (process_repository_background stages_render_fails
                    demo_url "id1" submitted).1
       = snapshots (mk_state tt ∅ []) ++ new
       /\ Forall (fun reg : registry =>
                    exists e, get_status "id1" reg = Json 200 (Some e)) new
       /\ head (observed "id1" new) = Some ("starting", 0%Z)
       /\ (forall i j p q, (i <= j)%nat ->
             observed "id1" new !! i = Some p ->
             observed "id1" new !! j = Some q -> (p.2 <= q.2)%Z)
       /\ (last (observed "id1" new) = Some ("completed", 100%Z)
           \/ exists p, last (observed "id1" new) = Some ("error", p)
                        /\ (p < 100)%Z).
Proof.
  assert (H : process_repository (Some demo_url) "id1" (mk_state tt ∅ [])
              = (submitted, RedirectProcessing "id1"))
    by (vm_compute; reflexivity).
  split; [ exact H | ].
  split; [ vm_compute; reflexivity | ].
  exact (C6_progress_never_decreases stages_render_fails (Some demo_url)
           "id1" demo_url "id1" (mk_state tt ∅ []) submitted H).
Defined.

End AppFacts.

(* ===================================================================== *)
(** * More properties of the merger                                       *)
(* ===================================================================== *)

Module MergeMoreFacts.
Import Py Merge MergeMore.

Local Open Scope list_scope.

(** Close a goal [bounded n t s s'] whose trace is spelled out. *)
Ltac spelled_out :=
  unfold bounded; cbn [fst snd trace world];
  eexists; split;
  [ rewrite <- ?app_assoc; cbn [app]; reflexivity
  | cbn; split; lia ].

Section Merger.
Context {W : Type} (os : OS W) (self : AudioVideoMerger).

Abbreviation state := (traced W event).

(** A probe starts one subprocess and always answers. *)
Lemma probe_video_run f (s : state) :
  exists w' d,
    _get_video_duration os f s
    = (mk_traced w' (trace s ++ [Subprocess (probe_cmd f) 30]), Ok d).
Proof.
  unfold _get_video_duration, float. unfold_monad.
  rewrite MergeFacts.run_spec.
  destruct (subprocess_run os _ 30 (world s)) as [w' [res|e]]; eauto.
  destruct (_ && _); eauto.
  destruct (float_of_string os _); eauto.
Qed.

Lemma probe_audio_run f (s : state) :
  exists w' d,
    _get_audio_duration os f s
    = (mk_traced w' (trace s ++ [Subprocess (probe_cmd f) 30]), Ok d).
Proof. apply probe_video_run. Qed.

Lemma verify_run f (s : state) :
  exists w' b,
    _verify_video_file os f s
    = (mk_traced w'
         (trace s ++ [Subprocess ["ffprobe"; "-v"; "quiet"; "-show_entries";
                                  "format=duration"; f] 30]),
       Ok b).
Proof.
  unfold _verify_video_file. unfold_monad. rewrite MergeFacts.run_spec.
  destruct (subprocess_run os _ 30 (world s)) as [w' [res|e]]; eauto.
Qed.

(** The audio loop, step by step. *)
Lemma audio_loop_spec v a o (target : Q) (s : state) :
  _merge_with_audio_loop os v a o target s
  = let cmd := audio_loop_cmd os v a o target in
    let (w1, r) := subprocess_run os cmd 300 (world s) in
    let s1 := mk_traced w1 (trace s ++ [Subprocess cmd 300]) in
    match r with
    | Ok result =>
        if (returncode result =? 0)%Z then (s1, Ok true)
        else _simple_merge os v a o s1
    | Raise _ => (s1, Ok false)
    end.
Proof.
  unfold _merge_with_audio_loop. unfold_monad. rewrite MergeFacts.run_spec.
  cbv zeta.
  destruct (subprocess_run os _ 300 (world s)) as [w1 [res|e]];
    [ | reflexivity ].
  destruct (returncode res =? 0)%Z; [ reflexivity | ].
  rewrite MergeFacts.simple_merge_spec. cbn [world trace].
  destruct (subprocess_run os (simple_merge_cmd v a o) 300 w1).
  reflexivity.
Qed.

(** ** The cost of a merge *)

Lemma bounded_refl (s : state) : bounded 0 0 s s.
Proof. exists []. rewrite app_nil_r. cbn. repeat split; lia. Qed.

Lemma total_timeout_app (e1 e2 : list event) :
  total_timeout (e1 ++ e2) = (total_timeout e1 + total_timeout e2)%Z.
Proof.
  unfold total_timeout.
  induction e1 as [|e l IH]; cbn; [ reflexivity | rewrite IH; lia ].
Qed.

Lemma bounded_trans n1 t1 n2 t2 (s s' s'' : state) :
  bounded n1 t1 s s' -> bounded n2 t2 s' s'' ->
  bounded (n1 + n2) (t1 + t2) s s''.
Proof.
  intros (e1 & H1 & L1 & T1) (e2 & H2 & L2 & T2).
  exists (e1 ++ e2). rewrite H2, H1, app_assoc, length_app, total_timeout_app.
  repeat split; lia.
Qed.

Lemma bounded_weaken n t n' t' (s s' : state) :
  bounded n t s s' -> (n <= n')%nat -> (t <= t')%Z -> bounded n' t' s s'.
Proof. intros (e & H & L & T) Hn Ht. exists e. repeat split; auto; lia. Qed.

Lemma probe_video_bounded f (s : state) :
  bounded 1 30 s (_get_video_duration os f s).1.
Proof. destruct (probe_video_run f s) as (w' & d & ->). spelled_out. Qed.

Lemma simple_merge_bounded v a o (s : state) :
  bounded 1 300 s (_simple_merge os v a o s).1.
Proof.
  rewrite MergeFacts.simple_merge_spec.
  destruct (subprocess_run os _ 300 (world s)). spelled_out.
Qed.

Lemma audio_loop_bounded v a o target (s : state) :
  bounded 2 600 s (_merge_with_audio_loop os v a o target s).1.
Proof.
  rewrite audio_loop_spec. cbv zeta.
  destruct (subprocess_run os _ 300 (world s)) as [w1 [res|e]];
    [ | spelled_out ].
  destruct (returncode res =? 0)%Z; [ spelled_out | ].
  rewrite MergeFacts.simple_merge_spec. cbn [world trace].
  destruct (subprocess_run os (simple_merge_cmd v a o) 300 w1).
  spelled_out.
Qed.

Lemma speed_adjust_bounded v a o target (s : state) :
  bounded 3 630 s (_merge_with_video_speed_adjust os v a o target s).1.
Proof.
  unfold _merge_with_video_speed_adjust, float_div. unfold_monad.
  destruct (probe_video_run v s) as (w1 & d & ->).
  set (s1 := mk_traced w1 _).
  assert (H1 : bounded 1 30 s s1) by (subst s1; spelled_out).
  assert (Hs : forall s2 : state, bounded 1 300 s1 s2 -> bounded 3 630 s s2).
  { intros s2 H2. eapply bounded_weaken;
      [ eapply bounded_trans; [ exact H1 | exact H2 ] | lia | lia ]. }
  destruct d as [Dv|].
  2: { destruct (MergeFacts.simple_merge_returns os v a o s1)
         as (s2 & b & E).
       pose proof (simple_merge_bounded v a o s1) as B. rewrite E in *.
       now apply Hs. }
  destruct (Qeq_bool target 0).
  { eapply bounded_weaken; [ exact H1 | lia | lia ]. }
  destruct (_ || _).
  { destruct (MergeFacts.simple_merge_returns os v a o s1)
      as (s2 & b & E).
    pose proof (simple_merge_bounded v a o s1) as B. rewrite E in *.
    now apply Hs. }
  rewrite MergeFacts.run_spec. subst s1. cbn [world trace].
  destruct (subprocess_run os _ 300 w1) as [w2 [res|e]];
    [ | spelled_out ].
  destruct (returncode res =? 0)%Z; [ spelled_out | ].
  rewrite MergeFacts.simple_merge_spec. cbn [world trace].
  destruct (subprocess_run os (simple_merge_cmd v a o) 300 w2).
  spelled_out.
Qed.

Lemma merge_with_ffmpeg_bounded v a o (s : state) :
  bounded 5 690 s (_merge_with_ffmpeg os v a o s).1.
Proof.
  destruct (probe_video_run v s) as (w1 & dv & Hv).
  destruct (probe_audio_run a (mk_traced w1
              (trace s ++ [Subprocess (probe_cmd v) 30])))
    as (w2 & da & Ha).
  rewrite (MergeFacts.merge_with_ffmpeg_dispatch os v a o _ _ _ dv da Hv Ha).
  cbn [trace] in *.
  set (s2 := mk_traced w2 _).
  assert (H2 : bounded 2 60 s s2) by (subst s2; spelled_out).
  assert (Hk : forall n t (s3 : state),
             bounded n t s2 s3 -> (n <= 3)%nat -> (t <= 630)%Z ->
             bounded 5 690 s s3).
  { intros n t s3 H3 Hn Ht. eapply bounded_weaken;
      [ eapply bounded_trans; [ exact H2 | exact H3 ] | lia | lia ]. }
  destruct dv as [Dv|], da as [Da|];
    try (eapply Hk; [ apply simple_merge_bounded | lia | lia ]).
  destruct (Qlt_bool _ 3);
    [ eapply Hk; [ apply simple_merge_bounded | lia | lia ] | ].
  destruct (Qlt_bool Da Dv).
  - eapply Hk; [ apply audio_loop_bounded | lia | lia ].
  - eapply Hk; [ apply speed_adjust_bounded | lia | lia ].
Qed.

(** A merge starts at most six subprocesses, three probes, two [ffmpeg]
    runs and the verification, and their timeouts add up to at most 720
    seconds. *)
Theorem merge_subprocess_budget (v a sid : string) (s : state) :
  bounded 6 720 s (merge_audio_video os self v a sid s).1.
Proof.
  unfold merge_audio_video, path_exists. unfold_monad.
  destruct (os_path_exists os v (world s)); cbn [negb];
    [ | eapply bounded_weaken; [ apply bounded_refl | lia | lia ] ].
  destruct (os_path_exists os a (world s)); cbn [negb];
    [ | eapply bounded_weaken; [ apply bounded_refl | lia | lia ] ].
  fold (final_path self sid).
  pose proof (merge_with_ffmpeg_bounded v a (final_path self sid) s) as B.
  destruct (_merge_with_ffmpeg os v a (final_path self sid) s)
    as [s1 [success|e]]; cbn [fst] in B;
    [ | eapply bounded_weaken; [ exact B | lia | lia ] ].
  destruct success; cbn [andb];
    [ | eapply bounded_weaken; [ exact B | lia | lia ] ].
  destruct (os_path_exists os (final_path self sid) (world s1));
    [ | eapply bounded_weaken; [ exact B | lia | lia ] ].
  destruct (verify_run (final_path self sid) s1) as (w2 & b & ->).
  assert (Hv : bounded 1 30 s1
                 (mk_traced w2
                    (trace s1
                     ++ [Subprocess ["ffprobe"; "-v"; "quiet"; "-show_entries";
                                     "format=duration"; final_path self sid]
                                    30])))
    by spelled_out.
  destruct b; cbn [fst];
    (eapply bounded_weaken;
     [ eapply bounded_trans; [ exact B | exact Hv ] | lia | lia ]).
Qed.

(** What a merge returns is the video it was given or the merged file, and
    the merged file only when both inputs exist, the merge has reported
    success, the output exists and its verification has passed. *)
Theorem merge_returns_video_or_verified_output (v a sid : string)
    (s : state) :
  let run := merge_audio_video os self v a sid s in
  let out := final_path self sid in
  run.2 = Ok v
  \/ (os_path_exists os v (world s) = true
      /\ os_path_exists os a (world s) = true
      /\ exists s1 s2,
           _merge_with_ffmpeg os v a out s = (s1, Ok true)
           /\ os_path_exists os out (world s1) = true
           /\ _verify_video_file os out s1 = (s2, Ok true)
           /\ run = (s2, Ok out)).
Proof.
  intros run out. subst run out.
  unfold merge_audio_video, path_exists. unfold_monad.
  fold (final_path self sid).
  destruct (os_path_exists os v (world s)); cbn [negb]; [ | now left ].
  destruct (os_path_exists os a (world s)); cbn [negb]; [ | now left ].
  destruct (_merge_with_ffmpeg os v a (final_path self sid) s)
    as [s1 [success|e]]; [ | now left ].
  destruct success; cbn [andb]; [ | now left ].
  destruct (os_path_exists os (final_path self sid) (world s1)) eqn:Ho;
    [ | now left ].
  destruct (_verify_video_file os (final_path self sid) s1)
    as [s2 [verified|e]] eqn:Hver; [ | now left ].
  destruct verified; [ | now left ].
  right. repeat split; auto. exists s1, s2. auto.
Qed.

(** The audio loop falls back to the direct mux only when the looping
    command exits with an error status; when it exits with 0 nothing else
    runs, and when the call itself raises (a timeout, no [ffmpeg]) the
    direct mux is not tried and the merge reports failure. *)
Theorem audio_loop_failure_tiers (v a o : string) (target : Q) (s : state) :
  let cmd := audio_loop_cmd os v a o target in
  let run := _merge_with_audio_loop os v a o target s in
  match subprocess_run os cmd 300 (world s) with
  | (w1, r) =>
      let s1 := mk_traced w1 (trace s ++ [Subprocess cmd 300]) in
      match r with
      | Ok result =>
          if (returncode result =? 0)%Z then run = (s1, Ok true)
          else run = _simple_merge os v a o s1
               /\ trace run.1
                  = trace s ++ [Subprocess cmd 300;
                                Subprocess (simple_merge_cmd v a o) 300]
      | Raise _ => run = (s1, Ok false)
      end
  end.
Proof.
  intros cmd run. subst run cmd.
  rewrite audio_loop_spec. cbv zeta.
  destruct (subprocess_run os _ 300 (world s)) as [w1 [res|e]];
    [ | reflexivity ].
  destruct (returncode res =? 0)%Z; [ reflexivity | ].
  split; [ reflexivity | ].
  rewrite MergeFacts.simple_merge_spec. cbn [world trace].
  destruct (subprocess_run os (simple_merge_cmd v a o) 300 w1).
  cbn [fst trace]. now rewrite <- app_assoc.
Qed.


(** Background music: without the music file nothing runs and the video
    is returned; otherwise one mixing command runs, and the mixed file is
    returned when it exits with 0, the video in every other case.  Neither
    the video nor the mixed file is checked. *)
Theorem background_music_outcomes (v m sid : string) (volume : Q)
    (s : state) :
  let cmd := music_cmd os v m (music_path self sid) volume in
  let run := add_background_music os self v m sid volume s in
  (os_path_exists os m (world s) = false -> run = (s, Ok v))
  /\ (os_path_exists os m (world s) = true ->
      forall w1 r,
        subprocess_run os cmd 300 (world s) = (w1, r) ->
        run = (mk_traced w1 (trace s ++ [Subprocess cmd 300]),
               Ok match r with
                  | Ok result =>
                      if (returncode result =? 0)%Z
                      then music_path self sid else v
                  | Raise _ => v
                  end)).
Proof.
  intros cmd run. subst cmd run.
  unfold add_background_music, path_exists. unfold_monad.
  fold (music_path self sid).
  split; intros Hm; rewrite Hm; cbn [negb]; [ reflexivity | ].
  intros w1 r Hr. rewrite MergeFacts.run_spec, Hr.
  destruct r as [res|e]; [ | reflexivity ].
  destruct (returncode res =? 0)%Z; reflexivity.
Qed.

End Merger.

(** The budget is reached: when the rescaling exits with an error, the
    merge runs three duration probes, the rescaling, the direct mux and the
    verification. *)
Example merge_budget_is_reached :
  map timeout_of
      (trace (merge_audio_video os_rescale_fails demo_merger
                "/tmp/video.mp4" "/tmp/audio.wav" "s1" (mk_traced tt [])).1)
  = [30; 30; 30; 300; 300; 30]%Z.
Proof. vm_compute. reflexivity. Qed.


End MergeMoreFacts.

(* ===================================================================== *)
(** * More properties of the job pipeline                                 *)
(* ===================================================================== *)

Module AppMoreFacts.
Import Py App AppRoutes.

Local Open Scope list_scope.

Section Worker.
Context {W Analysis : Type} (stages : Stages W Analysis).
Variables (sid : string) (s0 : state W).

Lemma kept_start entry :
  processing_status s0 !! sid = Some entry -> kept sid s0 s0 entry.
Proof.
  intros H. exists []. rewrite app_nil_r. repeat split; auto.
Qed.

(** An update of the session rewrites its entry and nothing else. *)
Lemma kept_update (f : Session -> Session) s e :
  kept sid s0 s e ->
  exists s',
    update sid f s = (s', Ok tt)
    /\ world s' = world s
    /\ kept sid s0 s' (f e).
Proof.
  intros (new & Hs & Hall & Hoth & He).
  unfold update. rewrite He. eexists. split; [ reflexivity | ].
  split; [ reflexivity | ].
  exists (new ++ [<[sid := f e]> (processing_status s)]).
  cbn [set_registry snapshots processing_status].
  rewrite Hs, app_assoc.
  assert (Hnew : forall other, other <> sid ->
            <[sid := f e]> (processing_status s) !! other
            = processing_status s0 !! other).
  { intros other Hne. rewrite lookup_insert_ne by congruence. auto. }
  repeat split; auto; [ | apply lookup_insert_eq ].
  apply Forall_app. split; [ exact Hall | ].
  apply Forall_singleton. exact Hnew.
Qed.

(** A stage changes the world and nothing of the registry. *)
Lemma kept_call {A} (f : W -> W * Py.result A) s s' r e :
  kept sid s0 s e -> call f s = (s', r) ->
  kept sid s0 s' e /\ f (world s) = (world s', r).
Proof.
  intros (new & Hs & Hall & Hoth & He). unfold call.
  destruct (f (world s)) as [w' r']. intros [= <- <-].
  split; [ exists new; cbn; auto | reflexivity ].
Qed.

Ltac do_update :=
  match goal with
  | I : kept _ _ ?s _ |- context [update _ ?f ?s] =>
      let s' := fresh "s" in
      let E := fresh "E" in
      let Hw := fresh "Hw" in
      let I' := fresh "I" in
      destruct (kept_update f s _ I) as (s' & E & Hw & I');
      rewrite E; clear E I
  end.

Ltac do_stage :=
  match goal with
  | I : kept _ _ ?s _ |- context [call ?f ?s] =>
      let C := fresh "C" in
      destruct (call f s) as [? [?|?]] eqn:C;
      apply (kept_call f s _ _ _ I) in C; destruct C as [? _]; clear I
  end.

Ltac has_failed :=
  do_update;
  match goal with
  | I : kept _ _ ?s ?e |- _ =>
      exists s, e;
      split; [ reflexivity | ];
      split; [ exact I | ];
      split; [ reflexivity | ];
      right; cbn; repeat split; eauto
  end.

(** The worker always returns, has touched its own session only, never
    changes the stored URL, and leaves the session completed, with a
    result file and the error field as it was, or in error, with the
    message of the exception and the result field as it was. *)
Lemma worker_final url entry :
  processing_status s0 !! sid = Some entry ->
  exists s' e,
    process_repository_background stages url sid s0 = (s', Ok tt)
    /\ kept sid s0 s' e
    /\ github_url e = github_url entry
    /\ ((status e = "completed"%string /\ progress e = 100%Z
         /\ error e = error entry
         /\ exists file, result_file e = Some file)
        \/ (status e = "error"%string
            /\ result_file e = result_file entry
            /\ exists msg, error e = Some msg
                           /\ message e = ("Error: " ++ msg)%string)).
Proof.
  intros H. pose proof (kept_start entry H) as I.
  unfold process_repository_background. unfold_monad.
  do_update.
  do_stage; [ | has_failed ].
  do_stage; [ | has_failed ].
  do_update.
  do_stage; [ | has_failed ].
  do_stage; [ | has_failed ].
  do_update.
  do_stage; [ | has_failed ].
  do_update.
  do_stage; [ | has_failed ].
  do_update.
  do_stage; [ | has_failed ].
  do_update.
  match goal with
  | I : kept _ _ ?s ?e |- _ =>
      exists s, e;
      split; [ reflexivity | ];
      split; [ exact I | ];
      split; [ reflexivity | ];
      left; cbn; repeat split; eauto
  end.
Qed.

End Worker.

(** The worker of one session never writes another session: every value
    the registry takes during the run, and the final one, hold every other
    session exactly as it was. *)
Theorem worker_touches_only_its_session {W Analysis}
    (stages : Stages W Analysis) (url sid other : string) (s : state W)
    (entry : Session) :
  processing_status s !! sid = Some entry ->
  other <> sid ->
  let s' := (process_repository_background stages url sid s).1 in
  processing_status s' !! other = processing_status s !! other
  /\ exists new,
       snapshots s' = snapshots s ++ new
       /\ Forall (fun reg : registry =>
                    reg !! other = processing_status s !! other) new.
Proof.
  intros H Hne.
  destruct (worker_final stages sid s url entry H)
    as (s' & e & -> & (new & Hs & Hall & Hoth & _) & _).
  cbn [fst]. split; [ now apply Hoth | ].
  exists new. split; [ exact Hs | ].
  eapply Forall_impl; [ exact Hall | ]. intros reg Hreg. now apply Hreg.
Qed.

Lemma worker_touches_only_its_session_witness :
  (processing_status submitted !! "id1"
   = Some {| status := "starting"; progress := 0;
             message := "Initializing repository processing...";
             error := None; result_file := None;
             github_url := demo_url |}
   /\ "id2"%string <> "id1"%string)
  /\ let s' := (process_repository_background stages_ok demo_url "id1"
                  submitted).1 in
     processing_status s' !! "id2" = processing_status submitted !! "id2"
     /\ exists new,
          snapshots s' = snapshots submitted ++ new
          /\ Forall (fun reg : registry =>
                       reg !! "id2" = processing_status submitted !! "id2")
                    new.
Proof.
  assert (H : processing_status submitted !! "id1"
              = Some {| status := "starting"; progress := 0;
                        message := "Initializing repository processing...";
                        error := None; result_file := None;
                        github_url := demo_url |})
    by (vm_compute; reflexivity).
  assert (Hne : "id2"%string <> "id1"%string) by discriminate.
  split; [ split; assumption | ].
  exact (worker_touches_only_its_session stages_ok demo_url "id1" "id2"
           submitted _ H Hne).
Defined.

(** After an accepted submission the session ends in one of two shapes:
    completed with a result file and no error, or in error with the error
    text, the message "Error: " followed by that text, and no result file;
    the URL stored is the submitted one, stripped. *)
Theorem terminal_session_fields {W Analysis}
    (stages : Stages W Analysis) (form_url : option string)
    (uuid url sid : string) (s s0 : state W) :
  process_repository form_url uuid s = (s0, RedirectProcessing sid) ->
  exists e,
    processing_status (process_repository_background stages url sid s0).1
      !! sid = Some e
    /\ github_url e = PyStr.strip (default ""%string form_url)
    /\ ((status e = "completed"%string /\ error e = None
         /\ exists file, result_file e = Some file)
        \/ (status e = "error"%string /\ result_file e = None
            /\ exists msg, error e = Some msg
                           /\ message e = ("Error: " ++ msg)%string)).
Proof.
  unfold process_repository.
  destruct (validate _) as [flash|]; [ intros [=] | ].
  intros [= <- <-].
  set (first := {| status := "starting"; progress := 0;
                   message := "Initializing repository processing...";
                   error := None; result_file := None;
                   github_url := PyStr.strip (default ""%string form_url) |}).
  set (reg0 := <[uuid := first]> (processing_status s)).
  assert (H0 : processing_status (set_registry reg0 s) !! uuid = Some first)
    by apply lookup_insert_eq.
  destruct (worker_final stages uuid _ url first H0)
    as (s' & e & -> & (new & _ & _ & _ & He) & Hurl & Hshape).
  exists e. cbn [fst]. split; [ exact He | ].
  split; [ exact Hurl | ].
  destruct Hshape as [(Hst & _ & Herr & Hfile) | (Hst & Hres & Hmsg)];
    [ left | right ]; auto.
Qed.

Lemma terminal_session_fields_witness :
  process_repository (Some demo_url) "id1" (mk_state tt ∅ [])
  = (submitted, RedirectProcessing "id1")
  /\ exists e,
       processing_status
         (process_repository_background stages_render_fails demo_url "id1"
                                        submitted).1 !! "id1" = Some e
       /\ github_url e = PyStr.strip (default ""%string (Some demo_url))
       /\ ((status e = "completed"%string /\ error e = None
            /\ exists file, result_file e = Some file)
           \/ (status e = "error"%string /\ result_file e = None
               /\ exists msg, error e = Some msg
                              /\ message e = ("Error: " ++ msg)%string)).
Proof.
  assert (H : process_repository (Some demo_url) "id1" (mk_state tt ∅ [])
              = (submitted, RedirectProcessing "id1"))
    by (vm_compute; reflexivity).
  split; [ exact H | ].
  exact (terminal_session_fields stages_render_fails (Some demo_url)
           "id1" demo_url "id1" (mk_state tt ∅ []) submitted H).
Defined.

(** When the analysis raises, no later stage runs: the session keeps
    progress 10 and records the text of the exception, unchanged, in
    [error] and, after "Error: ", in [message]. *)
Theorem analysis_failure_is_recorded {W Analysis}
    (stages : Stages W Analysis) (url sid : string) (s : state W)
    (entry : Session) (w1 w2 : W) (e : exn) :
  processing_status s !! sid = Some entry ->
  init_processors stages (world s) = (w1, Ok tt) ->
  analyze_repository stages url w1 = (w2, Raise e) ->
  let s' := (process_repository_background stages url sid s).1 in
  world s' = w2
  /\ processing_status s' !! sid
     = Some {| status := "error";
               progress := 10;
               message := "Error: " ++ exn_msg e;
               error := Some (exn_msg e);
               result_file := result_file entry;
               github_url := github_url entry |}.
Proof.
  intros H Hinit Han.
  unfold process_repository_background, update, call. unfold_monad.
  rewrite H. cbn [set_registry world processing_status snapshots].
  rewrite Hinit. cbn [world processing_status snapshots].
  rewrite Han. cbn [world processing_status snapshots].
  rewrite lookup_insert_eq.
  cbn [fst set_registry world processing_status snapshots].
  split; [ reflexivity | ].
  rewrite lookup_insert_eq. reflexivity.
Qed.

Lemma analysis_failure_is_recorded_witness :
  (processing_status submitted !! "id1"
   = Some {| status := "starting"; progress := 0;
             message := "Initializing repository processing...";
             error := None; result_file := None;
             github_url := demo_url |}
   /\ init_processors stages_analysis_fails (world submitted) = (tt, Ok tt)
   /\ analyze_repository stages_analysis_fails demo_url tt
      = (tt, Raise (mk_exn Exception
                      "Failed to analyze repository: no accessible branches")))
  /\ processing_status
       (process_repository_background stages_analysis_fails demo_url "id1"
                                      submitted).1 !! "id1"
     = Some {| status := "error";
               progress := 10;
               message :=
                 "Error: Failed to analyze repository: no accessible branches";
               error :=
                 Some "Failed to analyze repository: no accessible branches";
               result_file := None;
               github_url := demo_url |}.
Proof.
  assert (H : processing_status submitted !! "id1"
              = Some {| status := "starting"; progress := 0;
                        message := "Initializing repository processing...";
                        error := None; result_file := None;
                        github_url := demo_url |})
    by (vm_compute; reflexivity).
  split; [ split; [ exact H | split; reflexivity ] | ].
  exact (proj2 (analysis_failure_is_recorded stages_analysis_fails demo_url
                  "id1" submitted _ tt tt _ H eq_refl eq_refl)).
Defined.

(** A worker started for a session that is not in the registry changes
    nothing: the first update raises [KeyError], the handler's update
    raises it again, and the exception leaves the worker. *)
Theorem worker_without_session_raises {W Analysis}
    (stages : Stages W Analysis) (url sid : string) (s : state W) :
  processing_status s !! sid = None ->
  process_repository_background stages url sid s
  = (s, Raise (mk_exn KeyError sid)).
Proof.
  intros H. unfold process_repository_background, update. unfold_monad.
  rewrite H. cbn. rewrite H. reflexivity.
Qed.

Lemma worker_without_session_raises_witness :
  processing_status (mk_state tt ∅ []) !! "ghost" = None
  /\ process_repository_background stages_ok demo_url "ghost"
       (mk_state tt ∅ [])
     = (mk_state tt ∅ [], Raise (mk_exn KeyError "ghost")).
Proof.
  assert (H : processing_status (mk_state tt (∅ : registry) []) !! "ghost"
              = None) by reflexivity.
  split; [ exact H | ].
  exact (worker_without_session_raises stages_ok demo_url "ghost"
           (mk_state tt ∅ []) H).
Defined.

(** ** The pages *)

(** The processing page and the result page never send a visitor back
    and forth: each redirects to the other exactly when the other renders,
    and both go to the index for an unknown session. *)
Theorem session_pages_do_not_loop (sid : string) (reg : registry) :
  (processing sid reg = ToResult sid
   <-> exists e, result sid reg = ResultPage e sid)
  /\ (result sid reg = ToProcessing sid
      <-> exists e, processing sid reg = ProcessingPage e sid)
  /\ (reg !! sid = None ->
      processing sid reg = ToIndex "Invalid or expired session ID"
      /\ result sid reg = ToIndex "Invalid or expired session ID").
Proof.
  unfold processing, result.
  destruct (reg !! sid) as [e|].
  - destruct (String.eqb (status e) "completed"); cbn [negb].
    + split; [ split; eauto | ].
      split; [ split; [ intros [=] | intros [? [=]] ] | intros [=] ].
    + split; [ split; [ intros [=] | intros [? [=]] ] | ].
      split; [ split; eauto | intros [=] ].
  - split; [ split; [ intros [=] | intros [? [=]] ] | ].
    split; [ split; [ intros [=] | intros [? [=]] ] | auto ].
Qed.

(** A file is sent exactly when the session is completed, its result
    file is a non-empty path that exists, and [send_file] returns; the
    file sent is the result file, named after the first 8 characters of
    the session identifier. *)
Theorem download_sends_completed_results (path_exists : string -> bool)
    (send_file : string -> Py.result unit) (sid : string) (reg : registry)
    (path name : string) :
  download_video path_exists send_file sid reg = SendFile path name
  <-> exists e,
        reg !! sid = Some e
        /\ status e = "completed"%string
        /\ result_file e = Some path
        /\ path <> ""%string
        /\ path_exists path = true
        /\ (exists u, send_file path = Ok u)
        /\ name = ("repo2reel_" ++ PyStr.take 8 sid ++ ".mp4")%string.
Proof.
  unfold download_video, result_file_set.
  split.
  - destruct (reg !! sid) as [e|]; [ | intros [=] ].
    destruct (String.eqb (status e) "completed") eqn:Hst; cbn [negb orb];
      [ | intros [=] ].
    destruct (result_file e) as [p|] eqn:Hp; cbn [negb];
      [ | intros [=] ].
    destruct (PyStr.truthy p) eqn:Ht; cbn [negb]; [ | intros [=] ].
    change (default ""%string (Some p)) with p.
    destruct (path_exists p) eqn:He; cbn [negb]; [ | intros [=] ].
    destruct (send_file p) as [u|ex] eqn:Hs; [ | intros [=] ].
    intros [= <- <-]. exists e.
    apply String.eqb_eq in Hst.
    repeat split; eauto.
    intros ->. discriminate.
  - intros (e & -> & Hst & Hp & Hne & He & [u Hs] & ->).
    apply String.eqb_eq in Hst. rewrite Hst, Hp. cbn [negb orb].
    change (default ""%string (Some path)) with path.
    destruct path as [|c path]; [ congruence | ].
    cbn [PyStr.truthy PyStr.is_empty negb orb].
    rewrite He, Hs. reflexivity.
Qed.

End AppMoreFacts.

(* ===================================================================== *)
(** * Facts about strings                                                 *)
(* ===================================================================== *)

Module PyStrFacts.
Import PyStr.

Lemma app_nil_r (s : string) : (s ++ "")%string = s.
Proof.
  induction s as [|c s IH]; [ reflexivity | ].
  change (String c s ++ "")%string with (String c (s ++ "")).
  now rewrite IH.
Qed.

Lemma app_assoc (a b c : string) :
  ((a ++ b) ++ c)%string = (a ++ b ++ c)%string.
Proof.
  induction a as [|x a IH]; [ reflexivity | ].
  change (((String x a ++ b) ++ c)%string)
    with (String x ((a ++ b) ++ c)).
  now rewrite IH.
Qed.

Lemma length_app (a b : string) :
  String.length (a ++ b) = (String.length a + String.length b)%nat.
Proof.
  induction a as [|x a IH]; [ reflexivity | ].
  change (String.length (String x a ++ b))
    with (S (String.length (a ++ b))).
  now rewrite IH.
Qed.

Lemma length_take (n : nat) (s : string) :
  String.length (take n s) = Nat.min n (String.length s).
Proof.
  unfold take. revert s.
  induction n as [|n IH]; intros [|c s]; try reflexivity.
  change (String.length (substring 0 (S n) (String c s)))
    with (S (String.length (substring 0 n s))).
  now rewrite IH.
Qed.

Lemma any_char_app (p : ascii -> bool) (a b : string) :
  any_char p (a ++ b) = any_char p a || any_char p b.
Proof.
  induction a as [|x a IH]; [ reflexivity | ].
  change (any_char p (String x a ++ b))
    with (p x || any_char p (a ++ b)).
  change (any_char p (String x a)) with (p x || any_char p a).
  now rewrite IH, orb_assoc.
Qed.

Lemma truthy_nonempty (s : string) : truthy s = true <-> s <> EmptyString.
Proof. destruct s; cbn; split; congruence. Qed.

End PyStrFacts.

(* ===================================================================== *)
(** * More properties of the script segmenter                             *)
(* ===================================================================== *)

Module VideoMoreFacts.
Import Py Video VideoFrames.

Local Open Scope list_scope.

(** ** Sections *)

Lemma append_stripped_nonempty sections s :
  Forall (fun sec => sec <> EmptyString) sections ->
  Forall (fun sec => sec <> EmptyString) (append_stripped sections s).
Proof.
  intros H. unfold append_stripped.
  destruct (PyStr.truthy (PyStr.strip s)) eqn:E; [ | exact H ].
  apply Forall_app. split; [ exact H | ].
  apply Forall_singleton. now apply PyStrFacts.truthy_nonempty.
Qed.

Lemma marker_loop_nonempty lines : forall st,
  Forall (fun sec => sec <> EmptyString) st.1 ->
  Forall (fun sec => sec <> EmptyString)
         (fold_left marker_step lines st).1.
Proof.
  induction lines as [|line lines IH]; intros [sections current] H;
    [ exact H | ].
  cbn [fold_left]. apply IH. unfold marker_step.
  destruct (_ && _); cbn [fst]; [ | exact H ].
  now apply append_stripped_nonempty.
Qed.

Lemma filter_truthy_nonempty (l : list string) :
  Forall (fun sec => sec <> EmptyString)
         (filter (fun s => PyStr.truthy s = true) l).
Proof.
  apply Forall_forall. intros x Hx.
  apply list_elem_of_filter in Hx as [Hx _].
  now apply PyStrFacts.truthy_nonempty.
Qed.

(** Whatever rule applies, no section of a script is the empty string. *)
Theorem sections_are_never_empty_strings (script : string) :
  Forall (fun sec => sec <> EmptyString) (_split_script_into_sections script).
Proof.
  unfold _split_script_into_sections.
  destruct (sections_by_markers script) as [l|] eqn:E1.
  { unfold sections_by_markers in E1.
    destruct (_ && _); [ | discriminate ].
    pose proof (marker_loop_nonempty (PyStr.split nl script)
                  ([], EmptyString) (List.Forall_nil _)) as H.
    destruct (fold_left marker_step _ _) as [sections current].
    cbn [fst] in H.
    destruct (2 <=? _)%nat; [ | discriminate ].
    injection E1 as <-. now apply append_stripped_nonempty. }
  destruct (sections_by_paragraphs script) as [l|] eqn:E2.
  { unfold sections_by_paragraphs in E2.
    destruct (1 <? _)%nat; [ | discriminate ].
    injection E2 as <-. apply Forall_forall. intros p Hp.
    apply list_elem_of_fmap in Hp as (q & -> & Hq).
    apply list_elem_of_filter in Hq as [Hq _].
    now apply PyStrFacts.truthy_nonempty. }
  destruct (sections_by_sentences script) as [l|] eqn:E3.
  { unfold sections_by_sentences in E3.
    destruct (4 <? _)%nat; [ | discriminate ].
    injection E3 as <-. apply filter_truthy_nonempty. }
  destruct (sections_by_words script) as [l|] eqn:E4.
  { unfold sections_by_words in E4.
    destruct (40 <? _)%nat; [ | discriminate ].
    injection E4 as <-. apply filter_truthy_nonempty. }
  destruct (PyStr.truthy script) eqn:E5; apply Forall_singleton.
  - now apply PyStrFacts.truthy_nonempty.
  - discriminate.
Qed.

(** ** Titles and scenes *)

(** A title is the repository name or a non-empty text of at most 60
    characters; a longer first sentence is cut to 57 characters and three
    dots. *)
Theorem title_is_short_or_repo_name (section repo_name : string) :
  let title := _extract_title_from_section section repo_name in
  title = repo_name
  \/ (title <> EmptyString /\ (String.length title <= 60)%nat).
Proof.
  unfold _extract_title_from_section.
  destruct (PyStr.split "." _) as [|first rest]; [ now left | ].
  set (t := PyStr.strip (PyStr.replace "Today" "" _)).
  destruct (60 <? String.length t)%nat eqn:E.
  - apply Nat.ltb_lt in E.
    assert (L : String.length (PyStr.take 57 t ++ "...")%string = 60%nat).
    { rewrite PyStrFacts.length_app, PyStrFacts.length_take.
      change (String.length "...") with 3%nat. lia. }
    destruct (PyStr.truthy _) eqn:Ht; [ right | now left ].
    split; [ now apply PyStrFacts.truthy_nonempty | lia ].
  - apply Nat.ltb_ge in E.
    destruct (PyStr.truthy t) eqn:Ht; [ right | now left ].
    split; [ now apply PyStrFacts.truthy_nonempty | exact E ].
Qed.

Lemma determine_scene_type_known section technologies :
  _determine_scene_type section technologies ∈ scene_types.
Proof.
  unfold _determine_scene_type, scene_types.
  repeat match goal with
  | |- context [if ?b then _ else _] => destruct b
  end; set_solver.
Qed.

Lemma palette_color (i : nat) :
  nth (i mod length colors) colors EmptyString ∈ colors.
Proof.
  assert (H : (i mod length colors < length colors)%nat)
    by (apply Nat.mod_upper_bound; discriminate).
  exact (proj2 (list_elem_of_In _ _) (nth_In colors EmptyString H)).
Qed.

(** Every scene carries a known type, a colour of the palette, a text of
    at most 200 characters (153 unless it is the default scene), at most 6
    technologies and at most 5 features. *)
Theorem scene_fields_are_bounded (script : string) (repo : RepoAnalysis)
    (d : Q) :
  Forall (fun sc =>
            type sc ∈ scene_types
            /\ color sc ∈ colors
            /\ (String.length (text sc) <= 200)%nat
            /\ (length (scene_technologies sc) <= 6)%nat
            /\ (length (features sc) <= 5)%nat)
         (_create_scenes script repo d).
Proof.
  unfold _create_scenes, create_scenes_body.
  destruct (_split_script_into_sections script) as [|x l].
  - apply Forall_singleton. cbn [type color text scene_technologies features].
    rewrite PyStrFacts.length_take, !length_take.
    repeat split; try lia; unfold scene_types, colors; set_solver.
  - apply Forall_lookup_2. intros i sc Hi.
    rewrite list_lookup_imap in Hi.
    destruct ((x :: l) !! i) as [section|]; [ | discriminate ].
    injection Hi as <-.
    cbv beta iota delta [type color text scene_technologies features].
    rewrite !length_take.
    split; [ apply determine_scene_type_known | ].
    split; [ apply palette_color | ].
    split; [ | lia ].
    destruct (150 <? String.length section)%nat eqn:E.
    + rewrite PyStrFacts.length_app, PyStrFacts.length_take.
      change (String.length "...") with 3%nat. lia.
    + apply Nat.ltb_ge in E. lia.
Qed.

End VideoMoreFacts.

(* ===================================================================== *)
(** * Properties of the text wrapping                                     *)
(* ===================================================================== *)

Module WrapFacts.
Import Py PyStr Video VideoFrames.

Local Open Scope list_scope.

(** ** Words and whitespace *)

Lemma split_ws_from_some_app (w : string) : forall x rest,
  any_char is_space w = false ->
  split_ws_from (Some x) (w ++ rest)%string
  = split_ws_from (Some (x ++ w)%string) rest.
Proof.
  induction w as [|c w IH]; intros x rest Hw.
  - now rewrite PyStrFacts.app_nil_r.
  - change (any_char is_space (String c w))
      with (is_space c || any_char is_space w) in Hw.
    apply orb_false_iff in Hw as [Hc Hw].
    change (String c w ++ rest)%string with (String c (w ++ rest)%string).
    cbn [split_ws_from]. rewrite Hc, (IH _ _ Hw).
    now rewrite PyStrFacts.app_assoc.
Qed.

Lemma split_ws_from_none_word (w rest : string) :
  is_word w ->
  split_ws_from None (w ++ rest)%string = split_ws_from (Some w) rest.
Proof.
  intros [Hne Hw]. destruct w as [|c w]; [ congruence | ].
  change (any_char is_space (String c w))
    with (is_space c || any_char is_space w) in Hw.
  apply orb_false_iff in Hw as [Hc Hw].
  change (String c w ++ rest)%string with (String c (w ++ rest)%string).
  cbn [split_ws_from]. rewrite Hc.
  now rewrite (split_ws_from_some_app w _ rest Hw).
Qed.

(** A word splits into itself. *)
Lemma split_ws_word (w : string) : is_word w -> split_ws w = [w].
Proof.
  intros H. unfold split_ws.
  rewrite <- (PyStrFacts.app_nil_r w) at 1.
  now rewrite split_ws_from_none_word.
Qed.

(** Splitting distributes over a whitespace character. *)
Lemma split_ws_from_at_space (c : ascii) (a b : string) : forall cur,
  is_space c = true ->
  split_ws_from cur (a ++ String c b)%string
  = split_ws_from cur a ++ split_ws_from None b.
Proof.
  induction a as [|d a IH]; intros cur Hc.
  - change ("" ++ String c b)%string with (String c b).
    cbn [split_ws_from]. rewrite Hc.
    destruct cur; reflexivity.
  - change (String d a ++ String c b)%string
      with (String d (a ++ String c b)%string).
    cbn [split_ws_from].
    destruct (is_space d); [ destruct cur | ]; rewrite IH by exact Hc;
      reflexivity.
Qed.

(** What [split()] returns are words. *)
Lemma split_ws_from_words (s : string) : forall cur,
  (forall x, cur = Some x -> is_word x) ->
  Forall is_word (split_ws_from cur s).
Proof.
  induction s as [|c s IH]; intros cur Hcur; cbn [split_ws_from].
  - destruct cur as [x|]; [ | constructor ].
    apply Forall_singleton. now apply Hcur.
  - destruct (is_space c) eqn:Hc.
    + destruct cur as [x|].
      * apply Forall_cons. split; [ now apply Hcur | ].
        apply IH. intros ? [=].
      * apply IH. intros ? [=].
    + apply IH. intros x [= <-].
      destruct cur as [y|].
      * destruct (Hcur y eq_refl) as [Hne Hy]. split.
        -- destruct y; [ congruence | discriminate ].
        -- rewrite PyStrFacts.any_char_app, Hy. cbn. now rewrite Hc.
      * split; [ discriminate | ]. cbn. now rewrite Hc.
Qed.

Lemma split_ws_words (s : string) : Forall is_word (split_ws s).
Proof. apply split_ws_from_words. intros ? [=]. Qed.

Lemma join_cons2 (sep x y : string) (r : list string) :
  join sep (x :: y :: r) = (x ++ sep ++ join sep (y :: r))%string.
Proof. reflexivity. Qed.

(** Joining with one whitespace character and splitting again gives the
    words of the parts. *)
Lemma split_ws_join (c : ascii) (parts : list string) :
  is_space c = true ->
  split_ws (join (String c EmptyString) parts)
  = concat (map split_ws parts).
Proof.
  intros Hc. induction parts as [|x parts IH]; [ reflexivity | ].
  destruct parts as [|y r].
  - cbn. now rewrite List.app_nil_r.
  - rewrite join_cons2.
    change (String c "" ++ join (String c "") (y :: r))%string
      with (String c (join (String c "") (y :: r))).
    unfold split_ws at 1. rewrite split_ws_from_at_space by exact Hc.
    fold (split_ws x). fold (split_ws (join (String c "") (y :: r))).
    rewrite IH. reflexivity.
Qed.

Lemma concat_words (ws : list string) :
  Forall is_word ws -> concat (map split_ws ws) = ws.
Proof.
  induction 1 as [|w ws Hw _ IH]; [ reflexivity | ].
  cbn. now rewrite (split_ws_word w Hw), IH.
Qed.

Lemma split_ws_join_words (ws : list string) :
  Forall is_word ws -> split_ws (join " " ws) = ws.
Proof.
  intros H. rewrite (split_ws_join " "%char) by reflexivity.
  now apply concat_words.
Qed.

(** ** The loop of [_wrap_text] *)

Lemma push_line_held (lines cur : list string) :
  Forall is_word cur ->
  concat (map split_ws
            match cur with
            | [] => lines
            | _ :: _ => lines ++ [join " " cur]
            end)
  = concat (map split_ws lines) ++ cur.
Proof.
  intros H. destruct cur as [|x r]; [ now rewrite List.app_nil_r | ].
  rewrite map_app, concat_app. cbn [map concat].
  now rewrite (split_ws_join_words (x :: r) H), List.app_nil_r.
Qed.

Lemma wrap_step_held width st w :
  Forall is_word st.1.2 -> is_word w ->
  held (wrap_step width st w) = held st ++ [w]
  /\ Forall is_word (wrap_step width st w).1.2.
Proof.
  destruct st as [[lines cur] n]. cbn [fst snd]. intros Hcur Hw.
  unfold wrap_step, held.
  destruct (_ <=? width)%Z; cbn [fst snd].
  - split; [ now rewrite List.app_assoc | ].
    apply Forall_app. split; [ exact Hcur | now apply Forall_singleton ].
  - rewrite (push_line_held lines cur Hcur).
    split; [ reflexivity | now apply Forall_singleton ].
Qed.

Lemma wrap_fold_held width (ws : list string) : forall st,
  Forall is_word ws -> Forall is_word st.1.2 ->
  held (fold_left (wrap_step width) ws st) = held st ++ ws
  /\ Forall is_word (fold_left (wrap_step width) ws st).1.2.
Proof.
  induction ws as [|w ws IH]; intros st Hws Hst.
  - cbn. now rewrite List.app_nil_r.
  - apply Forall_cons in Hws as [Hw Hws]. cbn [fold_left].
    destruct (wrap_step_held width st w Hst Hw) as [Hh Hc].
    destruct (IH _ Hws Hc) as [Hh' Hc'].
    split; [ | exact Hc' ].
    now rewrite Hh', Hh, <- List.app_assoc.
Qed.

(** Wrapping moves no word: the words of the wrapped text are the words
    of the text, in the same order, for every width. *)
Theorem wrap_text_keeps_words (text : string) (width : Z) :
  split_ws (_wrap_text text width) = split_ws text.
Proof.
  unfold _wrap_text, nl.
  rewrite (split_ws_join newline) by reflexivity.
  unfold wrap_lines.
  destruct (wrap_fold_held width (split_ws text) ([], [], 0%Z)
              (split_ws_words text) (List.Forall_nil _)) as [Hh Hc].
  destruct (fold_left (wrap_step width) (split_ws text) ([], [], 0%Z))
    as [[lines cur] n].
  unfold held in Hh. cbn [fst snd map concat app] in Hh, Hc.
  now rewrite (push_line_held lines cur Hc).
Qed.

(** ** Line widths *)

Lemma join_snoc (sep w : string) (cur : list string) :
  cur <> [] ->
  join sep (cur ++ [w]) = (join sep cur ++ sep ++ w)%string.
Proof.
  induction cur as [|x cur IH]; [ congruence | intros _ ].
  destruct cur as [|y r]; [ reflexivity | ].
  change ((x :: y :: r) ++ [w]) with (x :: y :: (r ++ [w])).
  rewrite !join_cons2.
  change (y :: r ++ [w]) with ((y :: r) ++ [w]).
  rewrite IH by discriminate.
  now rewrite !PyStrFacts.app_assoc.
Qed.

Lemma nonempty_length (s : string) :
  s <> EmptyString <-> (1 <= String.length s)%nat.
Proof.
  destruct s; cbn; split; intros H; try congruence; try lia.
Qed.

Lemma push_line_ok width words (lines cur : list string) (n : Z) :
  wrap_inv width words (lines, cur, n) ->
  Forall (line_ok width words)
         match cur with
         | [] => lines
         | _ :: _ => lines ++ [join " " cur]
         end.
Proof.
  intros (Hl & _ & Hc). destruct cur as [|x r]; [ exact Hl | ].
  destruct Hc as (Hne & Hlen & Hw); [ discriminate | ].
  apply Forall_app. split; [ exact Hl | ].
  apply Forall_singleton. split; [ exact Hne | ].
  destruct Hw as [Hw | (w & [= -> ->] & Hw)]; [ left; lia | right ].
  exact Hw.
Qed.

Lemma wrap_step_inv width words st w :
  wrap_inv width words st -> is_word w -> w ∈ words ->
  wrap_inv width words (wrap_step width st w).
Proof.
  destruct st as [[lines cur] n]. intros Hinv [Hne _] Hin.
  pose proof (push_line_ok width words lines cur n Hinv) as Hpush.
  destruct Hinv as (Hl & Hn & Hc).
  apply nonempty_length in Hne.
  unfold wrap_step.
  destruct (n + Z.of_nat (String.length w) + 1 <=? width)%Z eqn:E.
  - apply Z.leb_le in E.
    split; [ exact Hl | ]. split; [ lia | ]. intros _.
    destruct cur as [|x r].
    + change ([] ++ [w]) with [w]. change (join " " [w]) with w.
      split; [ now apply nonempty_length | ]. split; [ lia | now left ].
    + destruct Hc as (Hj & Hlen & _); [ discriminate | ].
      rewrite join_snoc by discriminate.
      rewrite !PyStrFacts.length_app.
      change (String.length " ") with 1%nat.
      split; [ apply nonempty_length; rewrite !PyStrFacts.length_app; lia | ].
      split; [ lia | now left ].
  - split; [ exact Hpush | ]. split; [ lia | ]. intros _.
    change (join " " [w]) with w.
    split; [ now apply nonempty_length | ]. split; [ lia | ].
    right. exists w. auto.
Qed.

Lemma wrap_fold_inv width words (ws : list string) : forall st,
  wrap_inv width words st ->
  Forall is_word ws -> Forall (fun w => w ∈ words) ws ->
  wrap_inv width words (fold_left (wrap_step width) ws st).
Proof.
  induction ws as [|w ws IH]; intros st Hst Hws Hin; [ exact Hst | ].
  apply Forall_cons in Hws as [Hw Hws].
  apply Forall_cons in Hin as [Hi Hin].
  cbn [fold_left]. apply IH; auto. now apply wrap_step_inv.
Qed.

(** No line of a wrapped text is empty, and every line fits the width
    unless it is a single word of the text, which is never broken. *)
Theorem wrapped_lines_fit_or_are_one_word (text : string) (width : Z) :
  Forall (fun line =>
            line <> EmptyString
            /\ ((Z.of_nat (String.length line) <= width)%Z
                \/ line ∈ split_ws text))
         (wrap_lines text width).
Proof.
  unfold wrap_lines.
  assert (H0 : wrap_inv width (split_ws text) ([], [], 0%Z)).
  { split; [ constructor | ]. split; [ lia | congruence ]. }
  pose proof (wrap_fold_inv width (split_ws text) (split_ws text) _ H0
                (split_ws_words text)
                (proj2 (Forall_forall _ _) (fun x H => H))) as Hinv.
  destruct (fold_left (wrap_step width) (split_ws text) ([], [], 0%Z))
    as [[lines cur] n].
  exact (push_line_ok width _ lines cur n Hinv).
Qed.

End WrapFacts.

(* ===================================================================== *)
(** * Properties of the frame plan *)
(* ===================================================================== *)

Module FrameFacts.
Import Py Video VideoFrames.
Local Open Scope list_scope.
Local Open Scope Q_scope.

Lemma estimate_duration_range script :
  30 <= estimate_duration script /\ estimate_duration script <= 300.
Proof.
  unfold estimate_duration, py_min, py_max, Qlt_bool.
  set (w := of_nat _ * _).
  destruct (Qle_bool 30 w) eqn:E1; cbn [negb].
  - apply Qle_bool_iff in E1.
    destruct (Qle_bool w 300) eqn:E2; cbn [negb].
    + apply Qle_bool_iff in E2. split; assumption.
    + split; lra.
  - change (Qle_bool 30 300) with true. cbn [negb]. split; lra.
Qed.

Lemma frame_ratio d : d * fps / 3 == d * (25 # 3).
Proof. unfold fps. field. Qed.

Lemma total_frames_floor d :
  0 <= d -> total_frames d = Qfloor (d * fps / 3).
Proof.
  intros H. unfold total_frames, py_int.
  assert (Hn : 0 <= d * fps / 3) by (rewrite frame_ratio; lra).
  apply Qle_bool_iff in Hn. now rewrite Hn.
Qed.

Lemma total_frames_range d :
  30 <= d -> d <= 300 -> (250 <= total_frames d <= 2500)%Z.
Proof.
  intros H1 H2. rewrite total_frames_floor by lra.
  split.
  - change 250%Z with (Qfloor (inject_Z 250)).
    apply Qfloor_resp_le. rewrite frame_ratio.
    assert (inject_Z 250 == 250) by reflexivity. lra.
  - change 2500%Z with (Qfloor (inject_Z 2500)).
    apply Qfloor_resp_le. rewrite frame_ratio.
    assert (inject_Z 2500 == 2500) by reflexivity. lra.
Qed.

Lemma time_pos_range d k :
  0 <= d -> (Z.of_nat k < total_frames d)%Z ->
  0 <= time_pos k /\ time_pos k < d.
Proof.
  intros Hd Hk. rewrite total_frames_floor in Hk by exact Hd.
  assert (Ht : time_pos k == of_nat k * (3 # 25)).
  { unfold time_pos, fps. field. }
  rewrite Ht.
  assert (H0 : 0 <= of_nat k).
  { unfold of_nat. change 0 with (inject_Z 0). rewrite <- Zle_Qle. lia. }
  split; [ lra | ].
  assert (H1 : of_nat k + 1 <= d * (25 # 3)).
  { rewrite <- frame_ratio.
    eapply Qle_trans; [ | apply Qfloor_le ].
    unfold of_nat. change 1 with (inject_Z 1). rewrite <- inject_Z_plus.
    rewrite <- Zle_Qle. lia. }
  lra.
Qed.

(** When no scene of an evenly spaced list covers a time, the time is
    not before the end of any of them. *)
Lemma uncovered_is_late (scenes : list Scene) (sd t : Q) :
  (forall i sc, scenes !! i = Some sc ->
                duration sc == sd /\ start_time sc == of_nat i * sd) ->
  0 <= t ->
  Forall (fun sc => covers t sc = false) scenes ->
  forall i, (i <= length scenes)%nat -> of_nat i * sd <= t.
Proof.
  intros Hsc Ht Hno. induction i as [|i IH]; intros Hi.
  - assert (E : of_nat 0 == 0) by reflexivity. rewrite E. lra.
  - assert (Hlt : (i < length scenes)%nat) by lia.
    destruct (lookup_lt_is_Some_2 scenes i Hlt) as [sc Hl].
    destruct (Hsc i sc Hl) as [Hd Hs].
    rewrite Forall_lookup in Hno. specialize (Hno i sc Hl).
    unfold covers in Hno.
    assert (Hle : of_nat i * sd <= t) by (apply IH; lia).
    assert (H1 : Qle_bool (start_time sc) t = true).
    { apply Qle_bool_iff. rewrite Hs. exact Hle. }
    rewrite H1 in Hno. cbn [andb] in Hno.
    unfold Qlt_bool in Hno. apply negb_false_iff, Qle_bool_iff in Hno.
    rewrite Hd, Hs in Hno. rewrite VideoFacts.of_nat_succ. lra.
Qed.

Lemma scene_is_found script repo (d t : Q) :
  0 < d -> 0 <= t -> t < d ->
  exists scene,
    List.find (covers t) (_create_scenes script repo d) = Some scene.
Proof.
  intros Hd H0 Ht.
  destruct (List.find (covers t) (_create_scenes script repo d))
    as [scene|] eqn:E; [ now exists scene | exfalso ].
  set (scenes := _create_scenes script repo d) in *.
  assert (Hn : length scenes <> 0%nat).
  { unfold scenes. rewrite VideoFacts.create_scenes_length. lia. }
  assert (Hno : Forall (fun sc => covers t sc = false) scenes).
  { apply List.Forall_forall. intros sc Hin.
    exact (List.find_none _ _ E sc Hin). }
  pose proof (uncovered_is_late scenes (d / of_nat (length scenes)) t
                (VideoFacts.create_scenes_lookup script repo d)
                H0 Hno (length scenes) (le_n _)) as Hlate.
  pose proof (VideoFacts.of_nat_nonzero _ Hn) as Hnz.
  assert (Hd' : of_nat (length scenes) * (d / of_nat (length scenes)) == d)
    by (field; exact Hnz).
  rewrite Hd' in Hlate. lra.
Qed.

Lemma frame_plan_length scenes d :
  length (frame_plan scenes d) = Z.to_nat (total_frames d).
Proof. unfold frame_plan. now rewrite length_map, length_seq. Qed.

(** [generate_video] draws between 250 and 2500 frames, whatever the
    script, and the time of every frame lies within the video: at or
    after 0 and before the estimated duration. *)
Theorem frame_count_and_times (script : string) (repo : RepoAnalysis) :
  let frames := generate_video_frames script repo in
  (250 <= length frames <= 2500)%nat
  /\ Forall (fun frame =>
               0 <= frame.1.2 /\ frame.1.2 < estimate_duration script)
            frames.
Proof.
  intros frames. subst frames. unfold generate_video_frames.
  destruct (estimate_duration_range script) as [Hlo Hhi].
  pose proof (total_frames_range _ Hlo Hhi) as Hr.
  split; [ rewrite frame_plan_length; lia | ].
  unfold frame_plan. apply List.Forall_forall. intros frame Hin.
  apply List.in_map_iff in Hin as (k & <- & Hk).
  apply List.in_seq in Hk. cbn [fst snd].
  apply time_pos_range; [ lra | lia ].
Qed.


End FrameFacts.

(* ===================================================================== *)
(** * More properties of the speech synthesis *)
(* ===================================================================== *)

Module AudioMoreFacts.
Import Py Audio.
Local Open Scope list_scope.

(** The frames of the silent file: 22050 for each word, up to 360
    words. *)
Lemma silence_frames (text : string) :
  py_int (silence_duration text * 44100)
  = (22050 * Z.min (Z.of_nat (length (PyStr.split_ws text))) 360)%Z.
Proof.
  unfold silence_duration, py_min, Qlt_bool.
  set (n := Z.of_nat (length (PyStr.split_ws text))).
  assert (Hn : (0 <= n)%Z) by (subst n; lia).
  assert (Hq : (0 <= inject_Z n)%Q).
  { change 0%Q with (inject_Z 0). now rewrite <- Zle_Qle. }
  destruct (Qle_bool (inject_Z n * (1 # 2)) 180) eqn:E; cbn [negb].
  - apply Qle_bool_iff in E.
    assert (Hle : (n <= 360)%Z).
    { rewrite Zle_Qle. assert (inject_Z 360 == 360)%Q by reflexivity. lra. }
    rewrite Z.min_l by exact Hle.
    assert (Hv : (inject_Z n * (1 # 2) * 44100 == inject_Z (22050 * n))%Q).
    { rewrite inject_Z_mult. change (inject_Z 22050) with 22050%Q. lra. }
    unfold py_int.
    assert (H0 : (0 <= inject_Z n * (1 # 2) * 44100)%Q) by lra.
    apply Qle_bool_iff in H0. rewrite H0.
    rewrite (Qfloor_comp _ _ Hv). apply Qfloor_Z.
  - assert (Hgt : (360 < n)%Z).
    { apply Z.lt_nge. intros Hle. rewrite Zle_Qle in Hle.
      assert (inject_Z 360 == 360)%Q by reflexivity.
      assert (Hc : (inject_Z n * (1 # 2) <= 180)%Q) by lra.
      apply Qle_bool_iff in Hc. congruence. }
    rewrite Z.min_r by lia. reflexivity.
Qed.

Section Generator.
Context {W : Type} (os : OS W) (self : AudioGenerator).

(** [generate_audio] asks at most three things of the machine, and the
    silent file it writes by hand is the silent path of the session with
    22050 frames (half a second) for each word of the cleaned text, 360
    words (three minutes, 7 938 000 frames) at most. *)
Theorem silent_wave_is_bounded (text session_id : string) (w : W) :
  let run := generate_audio os self text session_id (mk_traced w []) in
  let words :=
    Z.of_nat (length (PyStr.split_ws (_clean_text_for_tts text))) in
  (length (trace run.1) <= 3)%nat
  /\ forall p frames,
       WaveWrite p frames ∈ trace run.1 ->
       p = silent_path self session_id
       /\ frames = (22050 * Z.min words 360)%Z
       /\ (0 <= frames <= 7938000)%Z.
Proof.
  intros run words. subst run.
  rewrite AudioFacts.generate_audio_run. cbv zeta.
  assert (Hw : forall p frames,
             WaveWrite p frames
             = WaveWrite (silent_path self session_id)
                 (py_int (silence_duration (_clean_text_for_tts text)
                          * 44100)) ->
             p = silent_path self session_id
             /\ frames = (22050 * Z.min words 360)%Z
             /\ (0 <= frames <= 7938000)%Z).
  { intros p frames [= -> ->]. rewrite silence_frames. fold words.
    split; [ reflexivity | ]. split; [ reflexivity | ]. subst words. lia. }
  destruct (tts_call os _ _ _ _) as [w1 [p|e1]]; cbn [world trace fst].
  { split; [ cbn; lia | ].
    intros p' frames Hin. apply list_elem_of_In in Hin. cbn in Hin.
    intuition discriminate. }
  rewrite AudioFacts.fallback_run. cbv zeta. cbn [world trace].
  destruct (subprocess_run_check os _ w1) as [w2 [u|e2]]; cbn [fst trace].
  { split; [ cbn; lia | ].
    intros p' frames Hin. apply list_elem_of_In in Hin. cbn in Hin.
    intuition discriminate. }
  destruct (existsb _ _); cbn [fst trace].
  - destruct (wave_write os _ _ w2) as [w3 [u|e3]]; cbn [fst trace].
    all: split; [ cbn; lia | ].
    all: intros p' frames Hin; apply list_elem_of_In in Hin.
    all: cbn [app In] in Hin.
    all: destruct Hin as [Hin|[Hin|[Hin|[]]]]; try discriminate.
    all: now apply Hw.
  - split; [ cbn; lia | ].
    intros p' frames Hin. apply list_elem_of_In in Hin. cbn in Hin.
    intuition discriminate.
Qed.

End Generator.

End AudioMoreFacts.
